(** * Mariner: configuration getters and the Elegoo Mars serial client

    A shallow embedding of [mariner/config.py] and [mariner/mars.py].
    Python exceptions are values of [exn]; a call that may raise returns a
    [result].  Dictionaries are finite maps with string keys. *)

From Stdlib Require Import ZArith NArith QArith Lia List String Ascii Bool.
From Stdlib Require Import Decimal DecimalN DecimalZ SpecFloat.
From Stdlib.Strings Require Import Byte.
From stdpp Require Import base option list strings gmap pretty.

Local Open Scope string_scope.
Local Open Scope list_scope.
Local Open Scope Z_scope.

(** ** Text and bytes

    A Python [str] is a sequence of Unicode code points, a [bytes] object a
    sequence of bytes.  String literals of the source are written with
    [text] and [b]. *)

Definition str := list N.
Definition bytes := list byte.

Definition text (s : string) : str :=
  List.map N_of_ascii (list_ascii_of_string s).

Definition b (s : string) : bytes := list_byte_of_string s.

Definition LF : N := 10.
Definition CR : N := 13.

(** ** Exceptions and results *)

Inductive exn :=
| AssertionError (msg : string)
| UnexpectedResponse (raw : str)
| NameError (name : string)
| TypeError
| ValueError
| UnicodeDecodeError
| UnicodeEncodeError
| OSError (msg : string)
| TomlDecodeError (msg : string)
| SerialException (msg : string).

Inductive result (A : Type) :=
| Ok (a : A)
| Raise (e : exn).
Arguments Ok {A} a.
Arguments Raise {A} e.

Definition rbind {A B} (r : result A) (k : A -> result B) : result B :=
  match r with
  | Ok a => k a
  | Raise e => Raise e
  end.

(** ** mariner/config.py *)

Module Config.

(** An object that is neither [None], a [str], an [int], a [bool] nor a
    [dict] (a TOML float, date or array), given by what the builtins
    [str], [int] and [bool] return on it. *)
Record other := {
  other_str : string;
  other_int : result Z;
  other_bool : bool;
}.

#[warnings="-register-all"]
Inductive value :=
| VNone
| VStr (s : string)
| VInt (z : Z)
| VBool (b : bool)
| VOther (o : other)
| VDict (d : gmap string value).

(** The environment of the module: the file system as [pathlib] and [open]
    see it, the [toml] parser, and the two builtin conversions whose result
    on a [dict] or a [str] is left open here. *)
Class Env := {
  path_exists : string -> bool;
  path_is_dir : string -> bool;
  path_absolute : string -> string;
  open_read : string -> result string;
  toml_loads : string -> result (gmap string value);
  str_dict : gmap string value -> string;
  int_str : string -> result Z;
}.

Inductive Path := MkPath (p : string).

Section Getters.
Context `{Env}.

Notation "'do' x <- c ; k" := (rbind c (fun x => k))
  (at level 10, x name, c at level 100, k at level 200).

(** [d.get(key)] and [d.get(key, default)]. *)
Definition dict_get (d : gmap string value) (key : string) (dflt : value) : value :=
  match d !! key with
  | Some v => v
  | None => dflt
  end.

(** The builtins [str], [int] and [bool]. *)
Definition py_str (v : value) : string :=
  match v with
  | VNone => "None"
  | VStr s => s
  | VInt z => pretty z
  | VBool b => if b then "True" else "False"
  | VOther o => other_str o
  | VDict d => str_dict d
  end.

Definition py_int (v : value) : result Z :=
  match v with
  | VNone => Raise TypeError
  | VStr s => int_str s
  | VInt z => Ok z
  | VBool b => Ok (if b then 1 else 0)
  | VOther o => other_int o
  | VDict _ => Raise TypeError
  end.

Definition py_bool (v : value) : bool :=
  match v with
  | VNone => false
  | VStr s => negb (String.eqb s "")
  | VInt z => negb (z =? 0)%Z
  | VBool b => b
  | VOther o => other_bool o
  | VDict d => negb (bool_decide (d = ∅))
  end.

Definition potential_paths : list string :=
  ["config.toml"; "~/.mariner/config.toml"; "/etc/mariner/config.toml"].

Definition __get_config_filename : option string :=
  match List.find (fun path => path_exists path && negb (path_is_dir path))
                  potential_paths with
  | Some path => Some (path_absolute path)
  | None => None
  end.

(** [lru_cache] keeps the first result for later calls; in a fixed
    environment every call computes that same result. *)
Definition _get_config : result (gmap string value) :=
  match __get_config_filename with
  | None => Ok ∅
  | Some filename =>
      do toml_string <- open_read filename ;
      toml_loads toml_string
  end.

Definition get_files_directory : result Path :=
  do config <- _get_config ;
  Ok (MkPath (py_str (dict_get config "files_directory" (VStr "/mnt/usb_share")))).

Definition get_printer_display_name : result (option string) :=
  do config <- _get_config ;
  match dict_get config "printer" VNone with
  | VDict printer_config =>
      match dict_get printer_config "display_name" VNone with
      | VNone => Ok None
      | display_name => Ok (Some (py_str display_name))
      end
  | _ => Ok None
  end.

Definition get_printer_serial_port : result string :=
  let default_port := "/dev/serial0" in
  do config <- _get_config ;
  match dict_get config "printer" VNone with
  | VDict printer_config =>
      Ok (py_str (dict_get printer_config "serial_port" (VStr default_port)))
  | _ => Ok default_port
  end.

Definition get_printer_baudrate : result Z :=
  let default_baudrate := 115200 in
  do config <- _get_config ;
  match dict_get config "printer" VNone with
  | VDict printer_config =>
      py_int (dict_get printer_config "baudrate" (VInt default_baudrate))
  | _ => Ok default_baudrate
  end.

Definition get_relay_pin : result (option Z) :=
  do config <- _get_config ;
  match dict_get config "relay_board" VNone with
  | VDict printer_config =>
      do n <- py_int (dict_get printer_config "relay_pin" VNone) ;
      Ok (Some n)
  | _ => Ok None
  end.

Definition get_relay_initial_value : result (option Z) :=
  do config <- _get_config ;
  match dict_get config "relay_board" VNone with
  | VDict printer_config =>
      do n <- py_int (dict_get printer_config "initial_value" VNone) ;
      Ok (Some n)
  | _ => Ok None
  end.

Definition get_relay_active_high : result (option bool) :=
  do config <- _get_config ;
  match dict_get config "relay_board" VNone with
  | VDict printer_config =>
      Ok (Some (py_bool (dict_get printer_config "active_high" VNone)))
  | _ => Ok None
  end.

Definition get_http_host : result string :=
  let default_host := "0.0.0.0" in
  do config <- _get_config ;
  match dict_get config "http" VNone with
  | VDict http_config =>
      Ok (py_str (dict_get http_config "host" (VStr default_host)))
  | _ => Ok default_host
  end.

Definition get_http_port : result Z :=
  let default_port := 5050 in
  do config <- _get_config ;
  match dict_get config "http" VNone with
  | VDict http_config =>
      py_int (dict_get http_config "port" (VInt default_port))
  | _ => Ok default_port
  end.

Definition get_cache_directory : result string :=
  let default_directory := "/tmp/mariner/" in
  do config <- _get_config ;
  match dict_get config "cache" VNone with
  | VDict cache_config =>
      Ok (py_str (dict_get cache_config "directory" (VStr default_directory)))
  | _ => Ok default_directory
  end.

(** The four home-assistant getters bind [ha_config] and then read the
    name [printer_config], which is bound neither in the function nor in
    the module: evaluating it raises [NameError]. *)
Definition get_ha_srv : result (option string) :=
  do config <- _get_config ;
  match dict_get config "homeassistant" VNone with
  | VDict ha_config => Raise (NameError "printer_config")
  | _ => Ok None
  end.

Definition get_ha_usr : result (option string) :=
  do config <- _get_config ;
  match dict_get config "homeassistant" VNone with
  | VDict ha_config => Raise (NameError "printer_config")
  | _ => Ok None
  end.

Definition get_ha_pass : result (option string) :=
  do config <- _get_config ;
  match dict_get config "homeassistant" VNone with
  | VDict ha_config => Raise (NameError "printer_config")
  | _ => Ok None
  end.

Definition get_ha_topic : result (option string) :=
  do config <- _get_config ;
  match dict_get config "homeassistant" VNone with
  | VDict ha_config => Raise (NameError "printer_config")
  | _ => Ok None
  end.

(** The home-assistant getters as the specification words them: the
    key is read from the [homeassistant] table, [None] when it is absent
    and the value as a string otherwise. *)
Definition get_ha_spec (key : string) : result (option string) :=
  do config <- _get_config ;
  match dict_get config "homeassistant" VNone with
  | VDict ha_config =>
      match dict_get ha_config key VNone with
      | VNone => Ok None
      | v => Ok (Some (py_str v))
      end
  | _ => Ok None
  end.

End Getters.

(** A value that is not a table. *)
Definition is_table (v : value) : bool :=
  match v with VDict _ => true | _ => false end.

(** Two environments to run the getters in: one in which none of the
    candidate paths exists, and one in which [config.toml] is a file in
    the working directory that parses to [config]. *)
Definition no_file : Env := {|
  path_exists _ := false;
  path_is_dir _ := false;
  path_absolute p := "/" ++ p;
  open_read _ := Raise (OSError "No such file or directory");
  toml_loads _ := Raise (TomlDecodeError "not read");
  str_dict _ := "{...}";
  int_str _ := Raise ValueError;
|}%string.

Definition with_config (config : gmap string value) : Env := {|
  path_exists p := String.eqb p "config.toml";
  path_is_dir _ := false;
  path_absolute p := "/" ++ p;
  open_read _ := Ok "";
  toml_loads _ := Ok config;
  str_dict _ := "{...}";
  int_str _ := Raise ValueError;
|}%string.

(** [printer = "oops"]: a section that is not a table. *)
Definition malformed_printer_config : gmap string value :=
  {[ "printer" := VStr "oops" ]}.

(** [[homeassistant]] with [address = "mqtt.local"]. *)
Definition homeassistant_config : gmap string value :=
  {[ "homeassistant" := VDict {[ "address" := VStr "mqtt.local" ]} ]}.

(** [[relay_board]] with a key the getters do not read. *)
Definition relay_board_config : gmap string value :=
  {[ "relay_board" := VDict {[ "label" := VStr "fan" ]} ]}.

Section Candidates.
Context `{Env}.

(** The test of [__get_config_filename] on a candidate path. *)
Definition eligible (path : string) : bool :=
  path_exists path && negb (path_is_dir path).

End Candidates.

(** An environment in which [config.toml] is a directory of the working
    directory [/home/pi] and [/etc/mariner/config.toml] is a file that
    parses to [config]. *)
Definition etc_file (config : gmap string value) : Env := {|
  path_exists p :=
    String.eqb p "config.toml" || String.eqb p "/etc/mariner/config.toml";
  path_is_dir p := String.eqb p "config.toml";
  path_absolute p :=
    if String.prefix "/" p then p else "/home/pi/" ++ p;
  open_read _ := Ok "";
  toml_loads _ := Ok config;
  str_dict _ := "{...}";
  int_str _ := Raise ValueError;
|}%string.

(** An environment in which [config.toml] is a file that is not valid
    TOML. *)
Definition invalid_file : Env := {|
  path_exists p := String.eqb p "config.toml";
  path_is_dir _ := false;
  path_absolute p := "/" ++ p;
  open_read _ := Ok "printer = ";
  toml_loads _ := Raise (TomlDecodeError "Empty value is invalid");
  str_dict _ := "{...}";
  int_str _ := Raise ValueError;
|}%string.

(** A configuration with every setting that has a getter. *)
Definition full_config : gmap string value :=
  {[ "files_directory" := VStr "/srv/prints";
     "printer" := VDict {[ "display_name" := VStr "Mars Pro";
                           "serial_port" := VStr "/dev/ttyUSB0";
                           "baudrate" := VInt 250000 ]};
     "relay_board" := VDict {[ "relay_pin" := VInt 17;
                                "initial_value" := VBool true;
                                "active_high" := VStr "false" ]};
     "http" := VDict {[ "host" := VStr "127.0.0.1"; "port" := VInt 8080 ]};
     "cache" := VDict {[ "directory" := VStr "/var/cache/mariner" ]} ]}.

(** [full_config] with another [http] section. *)
Definition other_http_config : gmap string value :=
  <[ "http" := VDict {[ "port" := VInt 80 ]} ]> full_config.

End Config.

(** ** Builtins used by mariner/mars.py *)

Module Py.

(** [bytes.decode("utf-8")]: strict decoding, which rejects stray
    continuation bytes, truncated and overlong sequences, surrogates and
    code points above U+10FFFF. *)
Definition is_cont (x : N) : bool := (N.land x 192 =? 128)%N.

Definition cont (x : N) : N := N.land x 63.

Fixpoint decode_utf8 (bs : list N) : option str :=
  match bs with
  | [] => Some []
  | b0 :: r0 =>
      if (b0 <? 128)%N then
        option_map (cons b0) (decode_utf8 r0)
      else if (b0 <? 224)%N then
        match r0 with
        | b1 :: r1 =>
            let c := N.lor (N.shiftl (N.land b0 31) 6) (cont b1) in
            if (192 <=? b0)%N && is_cont b1 && (128 <=? c)%N
            then option_map (cons c) (decode_utf8 r1) else None
        | _ => None
        end
      else if (b0 <? 240)%N then
        match r0 with
        | b1 :: b2 :: r2 =>
            let c := N.lor (N.shiftl (N.land b0 15) 12)
                       (N.lor (N.shiftl (cont b1) 6) (cont b2)) in
            if is_cont b1 && is_cont b2 && (2048 <=? c)%N
               && negb ((55296 <=? c)%N && (c <=? 57343)%N)
            then option_map (cons c) (decode_utf8 r2) else None
        | _ => None
        end
      else
        match r0 with
        | b1 :: b2 :: b3 :: r3 =>
            let c := N.lor (N.shiftl (N.land b0 7) 18)
                       (N.lor (N.shiftl (cont b1) 12)
                          (N.lor (N.shiftl (cont b2) 6) (cont b3))) in
            if (b0 <? 248)%N && is_cont b1 && is_cont b2 && is_cont b3
               && (65536 <=? c)%N && (c <=? 1114111)%N
            then option_map (cons c) (decode_utf8 r3) else None
        | _ => None
        end
  end.

Definition decode (data : bytes) : result str :=
  match decode_utf8 (List.map Byte.to_N data) with
  | Some s => Ok s
  | None => Raise UnicodeDecodeError
  end.

(** [str.encode()]: UTF-8; a surrogate or a value that is no code point
    raises. *)
Definition byte_of (n : N) : byte :=
  match Byte.of_N n with Some x => x | None => x00 end.

Definition encode_char (c : N) : option (list byte) :=
  if (c <? 128)%N then Some [byte_of c]
  else if (c <? 2048)%N then
    Some [byte_of (N.lor 192 (N.shiftr c 6)); byte_of (N.lor 128 (cont c))]
  else if (c <? 65536)%N then
    if (55296 <=? c)%N && (c <=? 57343)%N then None else
    Some [byte_of (N.lor 224 (N.shiftr c 12));
          byte_of (N.lor 128 (cont (N.shiftr c 6)));
          byte_of (N.lor 128 (cont c))]
  else if (c <=? 1114111)%N then
    Some [byte_of (N.lor 240 (N.shiftr c 18));
          byte_of (N.lor 128 (cont (N.shiftr c 12)));
          byte_of (N.lor 128 (cont (N.shiftr c 6)));
          byte_of (N.lor 128 (cont c))]
  else None.

Fixpoint encode_utf8 (s : str) : option bytes :=
  match s with
  | [] => Some []
  | c :: s' =>
      match encode_char c, encode_utf8 s' with
      | Some x, Some y => Some (x ++ y)
      | _, _ => None
      end
  end.

Definition encode (s : str) : result bytes :=
  match encode_utf8 s with
  | Some x => Ok x
  | None => Raise UnicodeEncodeError
  end.

(** Decimal digits: [str(n)] for an [int] and [int(s)] for a run of
    ASCII digits. *)
Fixpoint digits_of_uint (d : uint) : str :=
  match d with
  | Nil => []
  | D0 d => 48%N :: digits_of_uint d
  | D1 d => 49%N :: digits_of_uint d
  | D2 d => 50%N :: digits_of_uint d
  | D3 d => 51%N :: digits_of_uint d
  | D4 d => 52%N :: digits_of_uint d
  | D5 d => 53%N :: digits_of_uint d
  | D6 d => 54%N :: digits_of_uint d
  | D7 d => 55%N :: digits_of_uint d
  | D8 d => 56%N :: digits_of_uint d
  | D9 d => 57%N :: digits_of_uint d
  end.

Definition digit_of_char (c : N) (d : uint) : option uint :=
  match c with
  | 48 => Some (D0 d) | 49 => Some (D1 d) | 50 => Some (D2 d)
  | 51 => Some (D3 d) | 52 => Some (D4 d) | 53 => Some (D5 d)
  | 54 => Some (D6 d) | 55 => Some (D7 d) | 56 => Some (D8 d)
  | 57 => Some (D9 d)
  | _ => None
  end%N.

Fixpoint uint_of_digits (s : str) : option uint :=
  match s with
  | [] => Some Nil
  | c :: s' =>
      match uint_of_digits s' with
      | Some d => digit_of_char c d
      | None => None
      end
  end.

Definition is_digit (c : N) : bool := (48 <=? c)%N && (c <=? 57)%N.

Definition str_of_N (n : N) : str := digits_of_uint (N.to_uint n).

Definition str_of_int (z : Z) : str :=
  match z with
  | Zneg p => text "-" ++ str_of_N (Npos p)
  | _ => str_of_N (Z.to_N z)
  end.

(** [int(s)] on a non-empty run of ASCII digits. *)
Definition int_of_digits (s : str) : option N :=
  match s with
  | [] => None
  | _ => option_map N.of_uint (uint_of_digits s)
  end.

(** A Python [float] is an IEEE 754 binary64 value: [spec_float] with
    [S754_finite s m e] standing for [(-1)^s * m * 2^e]. *)
Definition float := spec_float.

(** [n / d] rounded to the nearest integer, ties to even ([0 <= n],
    [0 < d]). *)
Definition round_half_even (n d : Z) : Z :=
  let q := n / d in
  let r := n mod d in
  if 2 * r <? d then q
  else if d <? 2 * r then q + 1
  else if Z.even q then q else q + 1.

(** [|x| * 10] rounded to an integer, for [x = m * 2^e]. *)
Definition tenths (m : positive) (e : Z) : Z :=
  if 0 <=? e then Zpos m * 10 * 2 ^ e
  else round_half_even (Zpos m * 10) (2 ^ (- e)).

Definition sign_str (s : bool) : str := if s then text "-" else [].

(** [format(x, ".1f")], as in the f-string field [{x:.1f}]: the decimal
    expansion correctly rounded to one fractional digit. *)
Definition format_1f (x : float) : str :=
  match x with
  | S754_nan => text "nan"
  | S754_infinity s => sign_str s ++ text "inf"
  | S754_zero s => sign_str s ++ text "0.0"
  | S754_finite s m e =>
      let t := Z.to_N (tenths m e) in
      sign_str s ++ str_of_N (t / 10)%N ++ text "." ++ str_of_N (t mod 10)%N
  end.

Definition is_finite (x : float) : bool :=
  match x with
  | S754_zero _ | S754_finite _ _ _ => true
  | S754_infinity _ | S754_nan => false
  end.

Definition sign_bit (x : float) : bool :=
  match x with
  | S754_zero s | S754_infinity s | S754_finite s _ _ => s
  | S754_nan => false
  end.

(** The magnitude of a finite float as a fraction:
    [|x| = abs_num x / abs_den x]. *)
Definition abs_num (x : float) : Z :=
  match x with
  | S754_finite _ m e => Zpos m * 2 ^ Z.max 0 e
  | _ => 0
  end.

Definition abs_den (x : float) : Z :=
  match x with
  | S754_finite _ m e => 2 ^ Z.max 0 (- e)
  | _ => 1
  end.

(** The floats of the test suite: 10.0, -10.0 and the binary64 value
    nearest to 15.3. *)
Definition float_10 : float := S754_finite false 5 1.
Definition float_minus_10 : float := S754_finite true 5 1.
Definition float_15_3 : float := S754_finite false 8613134287346074 (-49).

(** The byte values 0xF8 to 0xFF, which occur in no UTF-8 sequence. *)
Definition high (x : N) : bool := (248 <=? x)%N.

(** The bytes of a text made of ASCII characters. *)
Definition ascii_bytes (s : str) : bytes := List.map byte_of s.

Definition is_ascii (s : str) : bool := forallb (fun c => (c <? 128)%N) s.

(** [none_throws(optional, message)] of pyre_extensions. *)
Definition none_throws {A} (optional : option A) (message : string) : result A :=
  match optional with
  | Some x => Ok x
  | None => Raise (AssertionError message)
  end.

End Py.

(** ** Regular expressions: the fragment of [re] the client uses

    A backtracking matcher in continuation-passing style.  [pos] is the
    offset of the remaining text [s] in the searched string; a capture
    group stores the text it consumed under its number. *)

Module Re.

Inductive regex :=
| Eps
| Bol                         (* ^ *)
| Eol                         (* $ *)
| Chr (c : N)                 (* a literal character *)
| Cls (p : N -> bool)         (* [...] *)
| PlusCls (p : N -> bool)     (* [...]+, greedy *)
| Cat (r1 r2 : regex)
| Group (i : nat) (r : regex).

Definition captures := gmap nat str.

Section Matcher.
Context {A : Type}.

(** The tail of [[...]+]: as many further characters as possible,
    giving one back each time the continuation fails. *)
Fixpoint greedy (p : N -> bool) (pos : nat) (s : str)
    (k : nat -> str -> option A) : option A :=
  match s with
  | x :: s' =>
      if p x then
        match greedy p (S pos) s' k with
        | Some a => Some a
        | None => k pos s
        end
      else k pos s
  | [] => k pos s
  end.

Fixpoint rmatch (r : regex) (pos : nat) (s : str) (caps : captures)
    (k : nat -> str -> captures -> option A) : option A :=
  match r with
  | Eps => k pos s caps
  | Bol => if Nat.eqb pos 0 then k pos s caps else None
  | Eol =>
      (* without MULTILINE: at the end, or before a final newline *)
      match s with
      | [] => k pos s caps
      | [x] => if (x =? LF)%N then k pos s caps else None
      | _ => None
      end
  | Chr c =>
      match s with
      | x :: s' => if (x =? c)%N then k (S pos) s' caps else None
      | [] => None
      end
  | Cls p =>
      match s with
      | x :: s' => if p x then k (S pos) s' caps else None
      | [] => None
      end
  | PlusCls p =>
      match s with
      | x :: s' =>
          if p x then greedy p (S pos) s' (fun pos' s'' => k pos' s'' caps)
          else None
      | [] => None
      end
  | Cat r1 r2 =>
      rmatch r1 pos s caps (fun pos' s' caps' => rmatch r2 pos' s' caps' k)
  | Group i r0 =>
      rmatch r0 pos s caps
        (fun pos' s' caps' => k pos' s' (<[i := take (pos' - pos) s]> caps'))
  end.

End Matcher.

(** [re.search(pattern, string)]: the first start offset with a match. *)
Fixpoint search_from (r : regex) (pos : nat) (s : str) : option captures :=
  match rmatch r pos s ∅ (fun _ _ caps => Some caps) with
  | Some m => Some m
  | None =>
      match s with
      | [] => None
      | _ :: s' => search_from r (S pos) s'
      end
  end.

Definition search (r : regex) (s : str) : option captures :=
  search_from r 0 s.

(** [m.group(i)]; a group that took no part in the match gives [None]. *)
Definition group (m : captures) (i : nat) : option str := m !! i.

Definition seq (rs : list regex) : regex := fold_right Cat Eps rs.

Definition lit (s : string) : regex := seq (List.map Chr (text s)).

Definition in_range (lo hi : ascii) (c : N) : bool :=
  (N_of_ascii lo <=? c)%N && (c <=? N_of_ascii hi)%N.

(** The longest prefix of [s] made of characters of the class [p], and
    what follows it. *)
Fixpoint span (p : N -> bool) (s : str) : str * str :=
  match s with
  | x :: s' =>
      if p x then let (t, r) := span p s' in (x :: t, r) else ([], s)
  | [] => ([], [])
  end.

(** The rest of a span is empty or starts outside the class. *)
Definition stops (p : N -> bool) (r : str) : Prop :=
  match r with
  | [] => True
  | x :: _ => p x = false
  end.

End Re.

(** ** mariner/mars.py *)

Module Mars.

Import Py.

(** The [serial.Serial] object the client drives: its constructor and the
    three methods the client calls.  A method may change the port and may
    raise. *)
Class Transport (T : Type) := {
  serial_Serial : string -> Z -> Q -> result T;
  serial_write : bytes -> T -> result unit * T;
  serial_readline : T -> result bytes * T;
  serial_close : T -> result unit * T;
}.

Record ElegooMars (T : Type) := { _serial_port : option T }.
Arguments _serial_port {T} _.

(** A method of the client: it runs on [self], may update it, and returns
    or raises. *)
Definition M (T A : Type) : Type := ElegooMars T -> result A * ElegooMars T.

Definition ret {T A} (a : A) : M T A := fun self => (Ok a, self).

Definition bind {T A B} (c : M T A) (k : A -> M T B) : M T B :=
  fun self =>
    match c self with
    | (Ok a, self') => k a self'
    | (Raise e, self') => (Raise e, self')
    end.

Definition lift {T A} (r : result A) : M T A := fun self => (r, self).

Notation "'do' x <- c ; k" := (bind c (fun x => k))
  (at level 10, x name, c at level 100, k at level 200).

(** The pattern of [get_firmware_version]: [^ok ([a-zA-Z0-9_.]+)\n$]. *)
Definition version_char (c : N) : bool :=
  Re.in_range "a" "z" c || Re.in_range "A" "Z" c || Re.in_range "0" "9" c
  || (c =? N_of_ascii "_")%N || (c =? N_of_ascii ".")%N.

Definition version_re : Re.regex :=
  Re.seq [Re.Bol; Re.lit "ok "; Re.Group 1 (Re.PlusCls version_char);
          Re.Chr LF; Re.Eol].

Definition not_opened_message : string :=
  "Tried to communicate with serial port without opening it".

Definition invalid_status_message : string :=
  "Received invalid status response from printer".

(** The default message of [none_throws]. *)
Definition unexpected_none_message : string := "Unexpected `None`".

(** Modelled from the spec: the state of the printer and the result of
    a status query. *)
Inductive PrinterState := IDLE | STARTING_PRINT | PRINTING | PAUSED | UNKNOWN.

Record PrintStatus := {
  state : PrinterState;
  current_byte : option N;
  total_bytes : option N;
}.

Fixpoint strip_prefix (p s : str) : option str :=
  match p, s with
  | [], _ => Some s
  | x :: p', y :: s' => if (x =? y)%N then strip_prefix p' s' else None
  | _ :: _, [] => None
  end.

Definition starts_with (p s : str) : bool :=
  match strip_prefix p s with Some _ => true | None => false end.

Fixpoint contains (p s : str) : bool :=
  starts_with p s ||
  match s with
  | [] => false
  | _ :: s' => contains p s'
  end.

(** The text before the first occurrence of [c], and the text after it. *)
Fixpoint split_at (c : N) (s : str) : option (str * str) :=
  match s with
  | [] => None
  | x :: s' =>
      if (x =? c)%N then Some ([], s')
      else match split_at c s' with
           | Some (l, r) => Some (x :: l, r)
           | None => None
           end
  end.

Definition strip_cr (line : str) : str :=
  match reverse line with
  | x :: l => if (x =? CR)%N then reverse l else line
  | [] => line
  end.

(** The first line of a reply without its terminator ([\n], or [\r\n]
    as in the replies of the firmware), and the text after it. *)
Definition first_line (data : str) : option (str * str) :=
  match split_at LF data with
  | Some (line, rest) => Some (strip_cr line, rest)
  | None => None
  end.

Definition not_printing_text : str := text "Error:It's not printing now!".

Definition sd_printing_text : str := text "SD printing byte ".

Definition byte_counts (line : str) : option (N * N) :=
  match strip_prefix sd_printing_text line with
  | Some counts =>
      match split_at (N_of_ascii "/") counts with
      | Some (cur, total) =>
          match int_of_digits cur, int_of_digits total with
          | Some c, Some t => Some (c, t)
          | _, _ => None
          end
      | None => None
      end
  | None => None
  end.

(** Modelled from the spec: the classification of an [M27] reply. *)
Definition print_status_of_reply (data : str) : result PrintStatus :=
  match first_line data with
  | Some (line, rest) =>
      if negb (starts_with (text "ok") rest) then Raise (UnexpectedResponse data)
      else if bool_decide (line = not_printing_text) then
        Ok {| state := IDLE; current_byte := None; total_bytes := None |}
      else
        match byte_counts line with
        | Some (cur, total) =>
            Ok {| state := if (cur =? 0)%N then STARTING_PRINT else PRINTING;
                  current_byte := Some cur;
                  total_bytes := Some total |}
        | None => Raise (UnexpectedResponse data)
        end
  | None => Raise (UnexpectedResponse data)
  end.

Section Client.
Context {T : Type} `{Transport T}.

Definition new : ElegooMars T := {| _serial_port := None |}.

Definition open : M T unit := fun self =>
  match serial_Serial "/dev/serial0" 115200 (1 # 10) with
  | Ok port => (Ok tt, {| _serial_port := Some port |})
  | Raise e => (Raise e, self)
  end.

Definition close : M T unit := fun self =>
  match none_throws (_serial_port self) unexpected_none_message with
  | Raise e => (Raise e, self)
  | Ok port =>
      let (r, port) := serial_close port in
      (r, {| _serial_port := Some port |})
  end.

Definition _send_and_read (data : bytes) : M T str := fun self =>
  match none_throws (_serial_port self) not_opened_message with
  | Raise e => (Raise e, self)
  | Ok serial_port =>
      let (written, serial_port) := serial_write data serial_port in
      match written with
      | Raise e => (Raise e, {| _serial_port := Some serial_port |})
      | Ok _ =>
          let (line, serial_port) := serial_readline serial_port in
          (rbind line decode, {| _serial_port := Some serial_port |})
      end
  end.

Definition get_firmware_version : M T (option str) :=
  do data <- _send_and_read (b "M4002") ;
  do m <- lift (none_throws (Re.search version_re data) invalid_status_message) ;
  ret (Re.group m 1).

Definition get_state : M T str :=
  _send_and_read (b "M4000").

Definition move_to (z_pos : float) : M T str :=
  do data <- lift (encode (text "G0 Z" ++ format_1f z_pos)) ;
  _send_and_read data.

(** Modelled from the spec: [get_print_status] (command [M27]), which is
    not in this version of mars.py.  The reply is
    [Error:It's not printing now!] followed by an [ok] line, or
    [SD printing byte <cur>/<total>] followed by [ok]; offset 0 is
    STARTING_PRINT, a larger one PRINTING; any other text is an unexpected
    response, raised with the raw text. *)
Definition get_print_status : M T PrintStatus :=
  do data <- _send_and_read (b "M27") ;
  lift (print_status_of_reply data).

(** Modelled from the spec: [move_by(delta, mm_per_min=600)], which is
    not in this version of mars.py.  It sends
    [G0 Z<delta> F<rate> I0], the delta formatted as [move_to] formats its
    position, and expects an [ok] acknowledgment. *)
Definition move_by (z_dist_mm : float) (mm_per_min : option Z) : M T unit :=
  let mm_per_min := default 600 mm_per_min in
  do data <- lift (encode (text "G0 Z" ++ format_1f z_dist_mm ++ text " F"
                           ++ str_of_int mm_per_min ++ text " I0")) ;
  do response <- _send_and_read data ;
  if contains (text "ok") response then ret tt
  else lift (Raise (UnexpectedResponse response)).

End Client.

(** The transport of the test suite: a [Mock(spec=serial.Serial)] whose
    [readline] returns a configured value and which records the calls
    made on it.  The patched constructor hands it out. *)
Inductive mock_call :=
| call_write (data : bytes)
| call_readline
| call_close.

Record MockSerial := {
  readline_return_value : bytes;
  method_calls : list mock_call;
}.

Definition record_call (c : mock_call) (m : MockSerial) : MockSerial :=
  {| readline_return_value := readline_return_value m;
     method_calls := method_calls m ++ [c] |}.

Definition mock_transport (reply : bytes) : Transport MockSerial := {|
  serial_Serial _ _ _ := Ok {| readline_return_value := reply; method_calls := [] |};
  serial_write data m := (Ok tt, record_call (call_write data) m);
  serial_readline m := (Ok (readline_return_value m), record_call call_readline m);
  serial_close m := (Ok tt, record_call call_close m);
|}.

(** The characters other than [c]. *)
Definition differs (c : N) : N -> bool := fun x => negb (x =? c)%N.

(** The two shapes of an [M27] reply that the specification accepts.
    A line ends with [\n] or [\r\n]; a byte count is a non-empty run of
    decimal digits. *)
Definition eol (e : str) : Prop := e = [LF] \/ e = [CR; LF].

Definition not_printing_reply (data : str) : Prop :=
  exists e rest : str,
    eol e /\ data = not_printing_text ++ e ++ text "ok" ++ rest.

Definition sd_printing_reply (data : str) (cur total : N) : Prop :=
  exists dcur dtotal e rest : str,
    eol e
    /\ int_of_digits dcur = Some cur /\ int_of_digits dtotal = Some total
    /\ data = sd_printing_text ++ dcur ++ text "/" ++ dtotal ++ e
              ++ text "ok" ++ rest.

(** Replies of the firmware to [M27], as in the test suite. *)
Definition starting_print_reply : bytes :=
  b "SD printing byte 0/23543968" ++ [x0d; x0a] ++ b "ok N:0" ++ [x0d; x0a].

Definition ok_reply : bytes := b "ok N:0" ++ [x0d; x0a].

(** What [readline] returns holds no newline before its last byte. *)
Definition is_line (data : str) : bool :=
  match reverse data with
  | [] => true
  | _ :: l => forallb (fun c => negb (c =? LF)%N) l
  end.

(** The token of a reply that [version_re] matches, read off directly:
    [ok ], the longest run of version characters, and a newline at, or one
    before, the end. *)
Definition version_token (data : str) : option str :=
  match strip_prefix (text "ok ") data with
  | Some rest =>
      let (t, r) := Re.span version_char rest in
      match t with
      | [] => None
      | _ :: _ =>
          if bool_decide (r = [LF]) || bool_decide (r = [LF; LF])
          then Some t else None
      end
  | None => None
  end.

(** The result of [get_firmware_version] as a function of the bytes that
    [readline] returned. *)
Definition firmware_version_of_reply (line : bytes) : result (option str) :=
  rbind (decode line) (fun data =>
  rbind (none_throws (Re.search version_re data) invalid_status_message)
        (fun m => Ok (Re.group m 1))).

(** A client of the test suite after [open()]: it holds the mock, on
    which nothing has been called yet. *)
Definition opened (reply : bytes) : ElegooMars MockSerial :=
  {| _serial_port :=
       Some {| readline_return_value := reply; method_calls := [] |} |}.

(** Replies used in the examples. *)
Definition version_reply : bytes := b "ok V4.3.4_LCDC" ++ [x0a].
Definition foobar_reply : bytes := b "foobar" ++ [x0a].
Definition partial_reply : bytes := b "ok V4.3".
Definition not_utf8_reply : bytes := [xff; x0a].

(** The bytes written to the port of a client. *)
Definition writes (self : ElegooMars MockSerial) : list bytes :=
  match _serial_port self with
  | Some m =>
      omap (fun c => match c with call_write d => Some d | _ => None end)
           (method_calls m)
  | None => []
  end.

(** The methods of this version of the client, to speak of sequences of
    calls. *)
Inductive method :=
| call_open
| call_close_port
| call_get_firmware_version
| call_get_state
| call_move_to (z_pos : float).

Section Calls.
Context {T : Type} `{Transport T}.

(** The client after one call, whether the call returned or raised. *)
Definition after_call (self : ElegooMars T) (m : method) : ElegooMars T :=
  match m with
  | call_open => (open self).2
  | call_close_port => (close self).2
  | call_get_firmware_version => (get_firmware_version self).2
  | call_get_state => (get_state self).2
  | call_move_to z_pos => (move_to z_pos self).2
  end.

Definition after_calls (self : ElegooMars T) (ms : list method) : ElegooMars T :=
  fold_left after_call ms self.

End Calls.

(** A port that cannot be written to, and a port that takes the command
    and cannot be read: each raises the [SerialException] of pyserial. *)
Definition unwritable_transport : Transport unit := {|
  serial_Serial _ _ _ := Ok tt;
  serial_write _ p := (Raise (SerialException "write failed"), p);
  serial_readline p := (Ok [], p);
  serial_close p := (Ok tt, p);
|}.

Definition unreadable_transport : Transport unit := {|
  serial_Serial _ _ _ := Ok tt;
  serial_write _ p := (Ok tt, p);
  serial_readline p := (Raise (SerialException "read failed"), p);
  serial_close p := (Ok tt, p);
|}.

(** More replies for the examples. *)
Definition version_reply_crlf : bytes := b "ok V4.3.4_LCDC" ++ [x0d; x0a].
Definition version_reply_two_newlines : bytes := b "ok V4.3.4_LCDC" ++ [x0a; x0a].
Definition noisy_reply : bytes := b "ok V4" ++ [xfe] ++ b ".3" ++ [x0a].

(** -1/32, which rounds to zero at one decimal. *)
Definition float_minus_1_32 : float := S754_finite true 1 (-5).

End Mars.

(** * Properties of the configuration getters *)

Section ConfigFacts.
Import Config.
Context `{Env}.

Lemma no_file_filename :
  Forall (fun p => path_exists p && negb (path_is_dir p) = false) potential_paths ->
  __get_config_filename = None.
Proof.
  unfold __get_config_filename, potential_paths.
  intros Hall. repeat (apply Forall_cons_1 in Hall as [? Hall]).
  simpl. repeat match goal with Hp : _ = false |- _ => rewrite Hp; clear Hp end.
  reflexivity.
Qed.

Lemma no_file_config :
  Forall (fun p => path_exists p && negb (path_is_dir p) = false) potential_paths ->
  _get_config = Ok ∅.
Proof.
  intros Hall. unfold _get_config. now rewrite no_file_filename.
Qed.

Lemma dict_get_empty (key : string) (dflt : value) :
  dict_get ∅ key dflt = dflt.
Proof. unfold dict_get. now rewrite lookup_empty. Qed.

Lemma dict_get_present (d : gmap string value) (key : string) (v dflt : value) :
  d !! key = Some v -> dict_get d key dflt = v.
Proof. unfold dict_get. now intros ->. Qed.

Lemma dict_get_absent (d : gmap string value) (key : string) (dflt : value) :
  d !! key = None -> dict_get d key dflt = dflt.
Proof. unfold dict_get. now intros ->. Qed.

End ConfigFacts.

Ltac run_getter :=
  match goal with
  | Hc : Config._get_config = Ok _ |- _ =>
      cbv beta delta
        [Config.get_files_directory Config.get_printer_display_name
         Config.get_printer_serial_port Config.get_printer_baudrate
         Config.get_relay_pin Config.get_relay_initial_value
         Config.get_relay_active_high Config.get_http_host
         Config.get_http_port Config.get_cache_directory Config.get_ha_srv
         Config.get_ha_usr Config.get_ha_pass Config.get_ha_topic
         Config.get_ha_spec];
      rewrite ?Hc; cbn [rbind]
  end.

Section ConfigClaims.
Import Config.
Context `{Env}.

(** C8.  When none of the candidate paths is a file, every getter returns
    its default: the documented value where there is one, [None] for the
    optional settings.  When the configuration has a section that is not
    a table, the getters of that section return the same defaults and do
    not raise. *)
Theorem getters_fall_back_to_defaults :
  (Forall (fun p => path_exists p && negb (path_is_dir p) = false) potential_paths ->
     get_files_directory = Ok (MkPath "/mnt/usb_share")
     /\ get_printer_display_name = Ok None
     /\ get_printer_serial_port = Ok "/dev/serial0"
     /\ get_printer_baudrate = Ok 115200
     /\ get_relay_pin = Ok None
     /\ get_relay_initial_value = Ok None
     /\ get_relay_active_high = Ok None
     /\ get_http_host = Ok "0.0.0.0"
     /\ get_http_port = Ok 5050
     /\ get_cache_directory = Ok "/tmp/mariner/"
     /\ get_ha_srv = Ok None /\ get_ha_usr = Ok None
     /\ get_ha_pass = Ok None /\ get_ha_topic = Ok None)
  /\ (forall (config : gmap string value) (section : string) (v : value),
        _get_config = Ok config ->
        config !! section = Some v ->
        is_table v = false ->
        (section = "printer" ->
           get_printer_display_name = Ok None
           /\ get_printer_serial_port = Ok "/dev/serial0"
           /\ get_printer_baudrate = Ok 115200)
        /\ (section = "relay_board" ->
              get_relay_pin = Ok None
              /\ get_relay_initial_value = Ok None
              /\ get_relay_active_high = Ok None)
        /\ (section = "http" ->
              get_http_host = Ok "0.0.0.0" /\ get_http_port = Ok 5050)
        /\ (section = "cache" -> get_cache_directory = Ok "/tmp/mariner/")
        /\ (section = "homeassistant" ->
              get_ha_srv = Ok None /\ get_ha_usr = Ok None
              /\ get_ha_pass = Ok None /\ get_ha_topic = Ok None)).
Proof.
  split.
  - intros Hall. pose proof (no_file_config Hall) as Hc.
    repeat split; run_getter; rewrite ?dict_get_empty; reflexivity.
  - intros config section v Hc Hsec Hv.
    split; [|split; [|split; [|split]]]; intros ->; repeat split; run_getter;
      rewrite (dict_get_present _ _ _ _ Hsec); destruct v; try discriminate;
      reflexivity.
Qed.

End ConfigClaims.

Lemma getters_fall_back_to_defaults_witness :
  (@Config.get_printer_serial_port Config.no_file = Ok "/dev/serial0"
   /\ @Config.get_printer_baudrate Config.no_file = Ok 115200)
  /\ @Config.get_printer_serial_port
       (Config.with_config Config.malformed_printer_config) = Ok "/dev/serial0".
Proof.
  split.
  - destruct (@getters_fall_back_to_defaults Config.no_file) as [Hno _].
    destruct Hno as (_ & _ & Hport & Hbaud & _).
    + repeat constructor.
    + split; assumption.
  - destruct (@getters_fall_back_to_defaults
                (Config.with_config Config.malformed_printer_config))
      as [_ Hbad].
    destruct (Hbad Config.malformed_printer_config "printer" (Config.VStr "oops"))
      as [Hprinter _].
    + reflexivity.
    + vm_compute; reflexivity.
    + reflexivity.
    + destruct (Hprinter eq_refl) as (_ & Hport & _). exact Hport.
Defined.

Section ConfigClaims2.
Import Config.
Context `{Env}.

(** Whenever [homeassistant] is a table, whatever it holds, each of the
    four home-assistant getters raises [NameError] for [printer_config]:
    none of them returns a value for any such configuration. *)
Lemma ha_getters_raise (config ha_config : gmap string value) :
  _get_config = Ok config ->
  config !! "homeassistant" = Some (VDict ha_config) ->
  get_ha_srv = Raise (NameError "printer_config")
  /\ get_ha_usr = Raise (NameError "printer_config")
  /\ get_ha_pass = Raise (NameError "printer_config")
  /\ get_ha_topic = Raise (NameError "printer_config").
Proof.
  intros Hc Hsec.
  repeat split; run_getter; rewrite (dict_get_present _ _ _ _ Hsec);
    reflexivity.
Qed.

(** C10.  With a [relay_board] table that lacks the key, [get_relay_pin]
    and [get_relay_initial_value] raise ([int] of [None] is a
    [TypeError]) and [get_relay_active_high] returns [False].  A relay
    getter returns [None] only when [relay_board] is absent or is not a
    table. *)
Theorem relay_getters_without_key (config : gmap string value) :
  _get_config = Ok config ->
  (forall relay_board : gmap string value,
      config !! "relay_board" = Some (VDict relay_board) ->
      (relay_board !! "relay_pin" = None -> get_relay_pin = Raise TypeError)
      /\ (relay_board !! "initial_value" = None ->
            get_relay_initial_value = Raise TypeError)
      /\ (relay_board !! "active_high" = None ->
            get_relay_active_high = Ok (Some false)))
  /\ (get_relay_pin = Ok None \/ get_relay_initial_value = Ok None
      \/ get_relay_active_high = Ok None ->
      config !! "relay_board" = None
      \/ exists v, config !! "relay_board" = Some v /\ is_table v = false).
Proof.
  intros Hc. split.
  - intros relay_board Hsec.
    repeat split; intros Hkey; run_getter;
      rewrite (dict_get_present _ _ _ _ Hsec), (dict_get_absent _ _ _ Hkey);
      reflexivity.
  - intros Hnone.
    destruct (config !! "relay_board") as [v|] eqn:Hsec; [right|now left].
    exists v. split; [reflexivity|].
    destruct v; try reflexivity. exfalso.
    revert Hnone. run_getter. rewrite (dict_get_present _ _ _ _ Hsec).
    intros [Hn | [Hn | Hn]]; try discriminate;
      match type of Hn with
      | context [py_int ?x] => destruct (py_int x); discriminate
      end.
Qed.

End ConfigClaims2.

(** C9.  With a [homeassistant] table holding an address,
    [get_ha_srv] raises [NameError] for the unbound name
    [printer_config], where reading the key from the table gives the
    address. *)
Theorem get_ha_srv_reads_unbound_name :
  @Config.get_ha_srv (Config.with_config Config.homeassistant_config)
    = Raise (NameError "printer_config")
  /\ @Config.get_ha_spec (Config.with_config Config.homeassistant_config) "address"
    = Ok (Some "mqtt.local").
Proof. split; vm_compute; reflexivity. Qed.

Lemma relay_getters_without_key_witness :
  @Config.get_relay_pin (Config.with_config Config.relay_board_config)
    = Raise TypeError
  /\ @Config.get_relay_active_high (Config.with_config Config.relay_board_config)
    = Ok (Some false).
Proof.
  destruct (@relay_getters_without_key
              (Config.with_config Config.relay_board_config)
              Config.relay_board_config) as [Htable _].
  - reflexivity.
  - destruct (Htable {[ "label" := Config.VStr "fan" ]}) as (Hpin & _ & Hhigh).
    + vm_compute; reflexivity.
    + split; [apply Hpin | apply Hhigh]; vm_compute; reflexivity.
Defined.

(** * The matcher on the pattern of [get_firmware_version] *)

Section RegexFacts.
Import Re Mars.

Lemma strip_prefix_app (p r : str) : strip_prefix p (p ++ r) = Some r.
Proof.
  induction p as [|x p IH]; simpl; [reflexivity|].
  now rewrite N.eqb_refl.
Qed.

Lemma strip_prefix_Some (p s r : str) :
  strip_prefix p s = Some r -> s = p ++ r.
Proof.
  revert s. induction p as [|x p IH]; intros s; simpl.
  - now intros [= ->].
  - destruct s as [|y s]; [discriminate|].
    destruct (N.eqb_spec x y) as [->|]; [|discriminate].
    intros Hs. now rewrite (IH _ Hs).
Qed.

Lemma span_app (p : N -> bool) (s : str) :
  s = (span p s).1 ++ (span p s).2.
Proof.
  induction s as [|x s IH]; simpl; [reflexivity|].
  destruct (p x); [|reflexivity].
  destruct (span p s) as [t r]; simpl in *. now rewrite IH at 1.
Qed.

Lemma span_prefix (p : N -> bool) (s : str) :
  forallb p (span p s).1 = true.
Proof.
  induction s as [|x s IH]; simpl; [reflexivity|].
  destruct (p x) eqn:Hx; [|reflexivity].
  destruct (span p s) as [t r]; simpl in *. now rewrite Hx.
Qed.

Lemma span_stops (p : N -> bool) (s : str) : stops p (span p s).2.
Proof.
  induction s as [|x s IH]; simpl; [exact I|].
  destruct (p x) eqn:Hx; [|exact Hx].
  destruct (span p s) as [t r]; exact IH.
Qed.

Lemma span_unique (p : N -> bool) (t r : str) :
  forallb p t = true -> stops p r -> span p (t ++ r) = (t, r).
Proof.
  intros Ht Hr. induction t as [|x t IH]; simpl in *.
  - destruct r as [|y r]; [reflexivity|]. simpl in *. now rewrite Hr.
  - apply andb_true_iff in Ht as [Hx Ht]. now rewrite Hx, (IH Ht).
Qed.

Section Greedy.
Context {A : Type} (p : N -> bool) (k : nat -> str -> option A).
Hypothesis k_stops : forall pos x s, p x = true -> k pos (x :: s) = None.

Lemma greedy_span (pos : nat) (s : str) :
  greedy p pos s k = k (pos + length (span p s).1)%nat (span p s).2.
Proof.
  revert pos. induction s as [|x s IH]; intros pos; simpl.
  - now rewrite Nat.add_0_r.
  - destruct (p x) eqn:Hx; simpl.
    + rewrite IH. destruct (span p s) as [t r]; simpl.
      rewrite <- Nat.add_succ_comm.
      destruct (k _ r) eqn:Hk; [reflexivity|].
      now apply k_stops.
    + now rewrite Nat.add_0_r.
Qed.

End Greedy.

Lemma rmatch_lit {A} (l : str) (rest : regex) (pos : nat) (s : str)
    (caps : captures) (k : nat -> str -> captures -> option A) :
  rmatch (fold_right Cat rest (List.map Chr l)) pos s caps k =
  match strip_prefix l s with
  | Some r => rmatch rest (pos + length l) r caps k
  | None => None
  end.
Proof.
  revert pos s. induction l as [|c l IH]; intros pos s; simpl.
  - now rewrite Nat.add_0_r.
  - destruct s as [|x s]; [reflexivity|].
    rewrite (N.eqb_sym c x).
    destruct (x =? c)%N; [|reflexivity].
    rewrite IH. now rewrite Nat.add_succ_comm.
Qed.

Lemma search_from_anchored (r : regex) (s : str) (pos : nat) :
  search_from (Cat Bol r) (S pos) s = None.
Proof.
  revert pos. induction s as [|x s IH]; intros pos; simpl; [reflexivity|].
  apply IH.
Qed.

Lemma search_anchored (r : regex) (s : str) :
  search (Cat Bol r) s = rmatch r 0 s ∅ (fun _ _ caps => Some caps).
Proof.
  unfold search. destruct s as [|x s]; simpl.
  - now destruct (rmatch r 0 [] ∅ _).
  - destruct (rmatch r 0 (x :: s) ∅ _); [reflexivity|].
    apply search_from_anchored.
Qed.

Lemma version_char_LF (x : N) : version_char x = true -> (x =? LF)%N = false.
Proof.
  intros Hx. destruct (N.eqb_spec x LF) as [->|]; [|reflexivity].
  discriminate Hx.
Qed.

End RegexFacts.

Section VersionPattern.
Import Re Mars.

Lemma version_tail (caps : captures) (pos : nat) (r : str) :
  rmatch (Cat (Chr LF) (Cat Eol Eps)) pos r caps (fun _ _ c => Some c) =
  if bool_decide (r = [LF]) || bool_decide (r = [LF; LF]) then Some caps
  else None.
Proof.
  cbn [rmatch].
  destruct r as [|y [|z [|w r]]]; try reflexivity;
    destruct (N.eqb_spec y LF) as [->|Hy]; try reflexivity;
    try (rewrite !bool_decide_eq_false_2 by congruence; reflexivity).
  - destruct (N.eqb_spec z LF) as [->|Hz]; [reflexivity|].
    rewrite !bool_decide_eq_false_2 by congruence. reflexivity.
Qed.

Lemma search_version_re (data : str) :
  search version_re data =
  option_map (fun t => {[ 1%nat := t ]}) (version_token data).
Proof.
  unfold version_re, seq. cbn [fold_right].
  rewrite search_anchored. unfold lit, seq. cbn [rmatch].
  rewrite rmatch_lit. unfold version_token.
  destruct (strip_prefix (text "ok ") data) as [rest|]; [|reflexivity].
  cbn [rmatch]. destruct rest as [|x s]; [reflexivity|].
  cbn [span]. destruct (version_char x) eqn:Hx; [|reflexivity].
  rewrite greedy_span.
  2:{ intros pos y s' Hy. cbn [rmatch]. now rewrite (version_char_LF _ Hy). }
  pose proof (span_app version_char s) as Hs.
  destruct (span version_char s) as [t r]; simpl in Hs. cbn [fst snd].
  pose proof (version_tail (<[1%nat := x :: t]> ∅) 0 r) as Htail.
  cbn [rmatch] in Htail |- *.
  replace (take _ (x :: s)) with (x :: t).
  - rewrite Htail. now destruct (bool_decide _ || bool_decide _).
  - rewrite Hs. simpl.
    replace (length t - 0)%nat with (length t) by lia.
    now rewrite take_app_length.
Qed.

End VersionPattern.

Section VersionToken.
Import Re Mars.

Lemma version_token_Some (data t : str) :
  version_token data = Some t <->
  (data = text "ok " ++ t ++ [LF] \/ data = text "ok " ++ t ++ [LF; LF])
  /\ t <> [] /\ forallb version_char t = true.
Proof.
  unfold version_token. split.
  - destruct (strip_prefix (text "ok ") data) as [rest|] eqn:Hp; [|discriminate].
    apply strip_prefix_Some in Hp.
    pose proof (span_app version_char rest) as Happ.
    pose proof (span_prefix version_char rest) as Hall.
    destruct (span version_char rest) as [t' r]; simpl in Happ, Hall.
    destruct t' as [|x t']; [discriminate|].
    destruct (bool_decide (r = [LF]) || bool_decide (r = [LF; LF])) eqn:Hr;
      [|discriminate].
    intros [= <-]. subst data rest.
    apply orb_true_iff in Hr as [Hr | Hr]; apply bool_decide_eq_true_1 in Hr;
      subst r; repeat split; auto; discriminate.
  - intros (Hdata & Hne & Hall).
    assert (Hspan : forall r, stops version_char r ->
                span version_char (t ++ r) = (t, r))
      by (intros r; now apply span_unique).
    destruct Hdata as [-> | ->]; rewrite strip_prefix_app, Hspan by reflexivity;
      (destruct t as [|x t]; [congruence|]); reflexivity.
Qed.

Lemma is_line_one_newline (p t : str) :
  is_line (p ++ t ++ [LF; LF]) = false.
Proof.
  unfold is_line. rewrite !reverse_app. reflexivity.
Qed.

End VersionToken.

(** * The client on a connected port *)

Section ClientFacts.
Import Py Re Mars.
Context {T : Type} `{Transport T}.

Lemma send_and_read_connected (self : ElegooMars T) (port port1 port2 : T)
    (cmd line : bytes) :
  _serial_port self = Some port ->
  serial_write cmd port = (Ok tt, port1) ->
  serial_readline port1 = (Ok line, port2) ->
  _send_and_read cmd self = (decode line, {| _serial_port := Some port2 |}).
Proof.
  intros Hport Hw Hr. unfold _send_and_read.
  rewrite Hport. cbn [none_throws]. rewrite Hw, Hr. reflexivity.
Qed.

Lemma send_and_read_not_opened (cmd : bytes) :
  _send_and_read cmd new = (Raise (AssertionError not_opened_message), new).
Proof. reflexivity. Qed.

Lemma get_firmware_version_connected (self : ElegooMars T)
    (port port1 port2 : T) (line : bytes) :
  _serial_port self = Some port ->
  serial_write (b "M4002") port = (Ok tt, port1) ->
  serial_readline port1 = (Ok line, port2) ->
  (get_firmware_version self).1 = firmware_version_of_reply line.
Proof.
  intros Hport Hw Hr. unfold get_firmware_version, bind.
  rewrite (send_and_read_connected _ _ _ _ _ _ Hport Hw Hr).
  unfold firmware_version_of_reply.
  destruct (decode line) as [data|e]; [|reflexivity].
  cbn [rbind]. unfold lift.
  destruct (none_throws (search version_re data) invalid_status_message);
    reflexivity.
Qed.

Lemma firmware_version_of_text (line : bytes) (data : str) :
  decode line = Ok data ->
  firmware_version_of_reply line =
  match version_token data with
  | Some t => Ok (Some t)
  | None => Raise (AssertionError invalid_status_message)
  end.
Proof.
  intros Hd. unfold firmware_version_of_reply. rewrite Hd. cbn [rbind].
  rewrite search_version_re.
  destruct (version_token data) as [t|]; [|reflexivity].
  reflexivity.
Qed.

End ClientFacts.

Section ClientClaims.
Import Py Re Mars.
Context {T : Type} `{Transport T}.

(** C3, as the code has it.  On an opened client whose port takes the
    command [M4002] and answers with one line of text,
    [get_firmware_version] returns the token [t] exactly when the line is
    [ok t] ended by a single [\n], with [t] a non-empty run of ASCII
    letters, digits, dots and underscores.  On every other line, [ok t]
    ended by [\r\n] or not ended included, it raises the
    [AssertionError] of [none_throws] with the fixed message
    [Received invalid status response from printer], which does not carry
    the reply. *)
Theorem get_firmware_version_token (self : ElegooMars T) (port port1 port2 : T)
    (line : bytes) (data : str) :
  _serial_port self = Some port ->
  serial_write (b "M4002") port = (Ok tt, port1) ->
  serial_readline port1 = (Ok line, port2) ->
  decode line = Ok data ->
  is_line data = true ->
  (forall t : str,
      (get_firmware_version self).1 = Ok (Some t) <->
      data = text "ok " ++ t ++ [LF]
      /\ t <> [] /\ forallb version_char t = true)
  /\ ((forall t : str,
         ~ (data = text "ok " ++ t ++ [LF]
            /\ t <> [] /\ forallb version_char t = true)) ->
      (get_firmware_version self).1
      = Raise (AssertionError invalid_status_message)).
Proof.
  intros Hport Hw Hr Hd Hline.
  rewrite (get_firmware_version_connected _ _ _ _ _ Hport Hw Hr).
  rewrite (firmware_version_of_text _ _ Hd).
  assert (Hshape : forall t, version_token data = Some t <->
            data = text "ok " ++ t ++ [LF]
            /\ t <> [] /\ forallb version_char t = true).
  { intros t. rewrite version_token_Some. split.
    - intros ([Hdata | Hdata] & Hne & Hall); [now repeat split|].
      rewrite Hdata, is_line_one_newline in Hline. discriminate.
    - intros (Hdata & Hne & Hall). repeat split; auto. }
  split.
  - intros t. rewrite <- Hshape.
    destruct (version_token data) as [t'|]; split; congruence.
  - intros Hnone. destruct (version_token data) as [t|] eqn:Htok; [|reflexivity].
    exfalso. apply (Hnone t). now apply Hshape.
Qed.

(** C7.  The result of [get_firmware_version] is a function of the reply:
    two calls that read the same line, on any two opened clients and
    ports, return the same token or raise the same failure. *)
Theorem get_firmware_version_same_reply (self self' : ElegooMars T)
    (port port1 port2 port' port1' port2' : T) (line : bytes) :
  _serial_port self = Some port ->
  serial_write (b "M4002") port = (Ok tt, port1) ->
  serial_readline port1 = (Ok line, port2) ->
  _serial_port self' = Some port' ->
  serial_write (b "M4002") port' = (Ok tt, port1') ->
  serial_readline port1' = (Ok line, port2') ->
  (get_firmware_version self).1 = (get_firmware_version self').1
  /\ (get_firmware_version self).1 = firmware_version_of_reply line.
Proof.
  intros Hport Hw Hr Hport' Hw' Hr'.
  rewrite (get_firmware_version_connected _ _ _ _ _ Hport Hw Hr).
  rewrite (get_firmware_version_connected _ _ _ _ _ Hport' Hw' Hr').
  split; reflexivity.
Qed.


(** C6, as the code has it.  [_send_and_read] raises nothing of its own
    when the read times out: it returns the decoded text of whatever
    [readline] returned, the empty string for no bytes and the partial
    text for a line without terminator.  Bytes that are not valid UTF-8
    raise the decode failure. *)
Theorem send_and_read_decodes_what_was_read (self : ElegooMars T)
    (port port1 port2 : T) (cmd line : bytes) :
  _serial_port self = Some port ->
  serial_write cmd port = (Ok tt, port1) ->
  serial_readline port1 = (Ok line, port2) ->
  (_send_and_read cmd self).1 = decode line
  /\ (line = [] -> (_send_and_read cmd self).1 = Ok [])
  /\ (forall data, decode_utf8 (List.map Byte.to_N line) = Some data ->
        (_send_and_read cmd self).1 = Ok data)
  /\ (decode_utf8 (List.map Byte.to_N line) = None ->
        (_send_and_read cmd self).1 = Raise UnicodeDecodeError).
Proof.
  intros Hport Hw Hr.
  rewrite (send_and_read_connected _ _ _ _ _ _ Hport Hw Hr). cbn [fst].
  repeat split.
  - now intros ->.
  - intros data Hd. unfold decode. now rewrite Hd.
  - intros Hd. unfold decode. now rewrite Hd.
Qed.

End ClientClaims.

(** * Formatting and encoding *)

Section Formatting.
Import Py.

Lemma encode_ascii (s : str) :
  is_ascii s = true -> encode s = Ok (ascii_bytes s).
Proof.
  unfold encode, is_ascii. intros Hs.
  enough (encode_utf8 s = Some (ascii_bytes s)) as -> by reflexivity.
  induction s as [|c s IH]; simpl in *; [reflexivity|].
  apply andb_true_iff in Hs as [Hc Hs].
  unfold encode_char. rewrite Hc, (IH Hs). reflexivity.
Qed.

Lemma is_ascii_app (s t : str) :
  is_ascii (s ++ t) = is_ascii s && is_ascii t.
Proof. apply forallb_app. Qed.

Lemma digits_ascii (d : uint) : is_ascii (digits_of_uint d) = true.
Proof. induction d; simpl; auto. Qed.

Lemma str_of_N_ascii (n : N) : is_ascii (str_of_N n) = true.
Proof. apply digits_ascii. Qed.

Lemma str_of_int_ascii (z : Z) : is_ascii (str_of_int z) = true.
Proof.
  destruct z; unfold str_of_int; rewrite ?is_ascii_app;
    rewrite ?str_of_N_ascii; reflexivity.
Qed.

Lemma format_1f_ascii (x : float) : is_ascii (format_1f x) = true.
Proof.
  destruct x as [s|s| |s m e]; unfold format_1f;
    rewrite ?is_ascii_app, ?str_of_N_ascii; try destruct s; reflexivity.
Qed.

Lemma ascii_bytes_app (s t : str) :
  ascii_bytes (s ++ t) = ascii_bytes s ++ ascii_bytes t.
Proof. apply List.map_app. Qed.

End Formatting.

Section Lifecycle.
Import Py Re Mars.
Context {T : Type} `{Transport T}.

Lemma get_firmware_version_not_opened :
  get_firmware_version new = (Raise (AssertionError not_opened_message), new).
Proof. reflexivity. Qed.

Lemma move_to_not_opened (z_pos : float) :
  move_to z_pos new = (Raise (AssertionError not_opened_message), new).
Proof.
  unfold move_to, bind, lift. rewrite encode_ascii; [reflexivity|].
  rewrite is_ascii_app, format_1f_ascii. reflexivity.
Qed.

Lemma close_keeps_port (self : ElegooMars T) (port : T) :
  _serial_port self = Some port ->
  _serial_port (close self).2 = Some (serial_close port).2.
Proof.
  intros Hport. unfold close. rewrite Hport. cbn [none_throws].
  now destruct (serial_close port).
Qed.

(** C4, as the code has it.  Before [open()] every command method fails
    with the failure [Tried to communicate with serial port without
    opening it] and touches no port.  [close()] closes the port and keeps
    it in the client, so a command issued after [close()] passes that
    check and is written to the closed port: what happens is what the
    port's [write] and [readline] do. *)
Theorem commands_check_that_a_port_was_opened :
  (get_firmware_version new = (Raise (AssertionError not_opened_message), new)
   /\ get_state new = (Raise (AssertionError not_opened_message), new)
   /\ forall z_pos : float,
        move_to z_pos new = (Raise (AssertionError not_opened_message), new))
  /\ (forall (self : ElegooMars T) (port : T) (cmd : bytes),
        _serial_port self = Some port ->
        let closed := (serial_close port).2 in
        _serial_port (close self).2 = Some closed
        /\ (_send_and_read cmd (close self).2).1 =
           match serial_write cmd closed with
           | (Raise e, _) => Raise e
           | (Ok _, port1) => rbind (serial_readline port1).1 decode
           end).
Proof.
  split.
  - split; [reflexivity|]. split; [reflexivity|]. exact move_to_not_opened.
  - intros self port cmd Hport closed.
    pose proof (close_keeps_port _ _ Hport) as Hkept. split; [exact Hkept|].
    unfold _send_and_read. rewrite Hkept. cbn [none_throws]. fold closed.
    destruct (serial_write cmd closed) as [[u|e] port1]; [|reflexivity].
    now destruct (serial_readline port1).
Qed.

End Lifecycle.

(** * The client on the mock port of the test suite *)

Lemma open_mock (reply : bytes) :
  @Mars.open _ (Mars.mock_transport reply) Mars.new = (Ok tt, Mars.opened reply).
Proof. reflexivity. Qed.

Lemma get_firmware_version_token_witness :
  (@Mars.get_firmware_version _ (Mars.mock_transport Mars.version_reply)
     (Mars.opened Mars.version_reply)).1
  = Ok (Some (text "V4.3.4_LCDC")).
Proof.
  destruct (@get_firmware_version_token _ (Mars.mock_transport Mars.version_reply)
              (Mars.opened Mars.version_reply)
              {| Mars.readline_return_value := Mars.version_reply;
                 Mars.method_calls := [] |}
              _ _ Mars.version_reply (text "ok V4.3.4_LCDC" ++ [LF])
              eq_refl eq_refl eq_refl eq_refl eq_refl) as [Htoken _].
  apply Htoken. repeat split. discriminate.
Defined.

Lemma get_firmware_version_same_reply_witness :
  (@Mars.get_firmware_version _ (Mars.mock_transport Mars.version_reply)
     (Mars.opened Mars.version_reply)).1
  = (@Mars.get_firmware_version _ (Mars.mock_transport Mars.version_reply)
       (@Mars.get_state _ (Mars.mock_transport Mars.version_reply)
          (Mars.opened Mars.version_reply)).2).1.
Proof.
  refine (proj1 (@get_firmware_version_same_reply _
                   (Mars.mock_transport Mars.version_reply)
                   (Mars.opened Mars.version_reply)
                   (@Mars.get_state _ (Mars.mock_transport Mars.version_reply)
                      (Mars.opened Mars.version_reply)).2
                   _ _ _ _ _ _ Mars.version_reply
                   eq_refl eq_refl eq_refl eq_refl eq_refl eq_refl)).
Defined.



Lemma send_and_read_decodes_what_was_read_witness :
  (@Mars._send_and_read _ (Mars.mock_transport Mars.not_utf8_reply) (b "M4000")
     (Mars.opened Mars.not_utf8_reply)).1
  = Raise UnicodeDecodeError.
Proof.
  refine (proj2 (proj2 (proj2
            (@send_and_read_decodes_what_was_read _
               (Mars.mock_transport Mars.not_utf8_reply)
               (Mars.opened Mars.not_utf8_reply)
               _ _ _ (b "M4000") Mars.not_utf8_reply
               eq_refl eq_refl eq_refl))) eq_refl).
Defined.

(** C6 fails on both timeouts: with no byte read and with a partial line
    read, [_send_and_read] returns a string and raises nothing, and
    [get_firmware_version] raises one and the same failure. *)
Lemma read_timeouts_raise_no_failure_of_their_own :
  (@Mars._send_and_read _ (Mars.mock_transport []) (b "M4000")
     (Mars.opened [])).1 = Ok []
  /\ (@Mars._send_and_read _ (Mars.mock_transport Mars.partial_reply) (b "M4000")
        (Mars.opened Mars.partial_reply)).1 = Ok (text "ok V4.3")
  /\ (@Mars.get_firmware_version _ (Mars.mock_transport [])
        (Mars.opened [])).1
     = (@Mars.get_firmware_version _ (Mars.mock_transport Mars.partial_reply)
          (Mars.opened Mars.partial_reply)).1.
Proof. repeat split; vm_compute; reflexivity. Qed.

Lemma commands_check_that_a_port_was_opened_witness :
  Mars._serial_port
    (@Mars.close _ (Mars.mock_transport Mars.foobar_reply)
       (Mars.opened Mars.foobar_reply)).2
  = Some {| Mars.readline_return_value := Mars.foobar_reply;
            Mars.method_calls := [Mars.call_close] |}.
Proof.
  destruct (@commands_check_that_a_port_was_opened _
              (Mars.mock_transport Mars.foobar_reply)) as [_ Hclosed].
  exact (proj1 (Hclosed (Mars.opened Mars.foobar_reply) _ (b "M4000") eq_refl)).
Defined.

(** C4 fails after [close()]: on the mock port a command issued after
    [open()] and [close()] does not fail; it is written to the port and
    returns the reply. *)
Lemma command_after_close_is_written_to_the_port :
  let H := Mars.mock_transport Mars.foobar_reply in
  let closed := (Mars.bind Mars.open (fun _ => Mars.close) Mars.new).2 in
  (Mars.get_state closed).1 = Ok (text "foobar" ++ [LF])
  /\ (Mars.get_state closed).1 <> Raise (AssertionError Mars.not_opened_message)
  /\ Mars.writes (Mars.get_state closed).2 = [b "M4000"].
Proof. repeat split. discriminate. Qed.

(** * Classification of the [M27] reply *)

Section PrintStatusFacts.
Import Py Mars.

Lemma uint_of_digits_of_uint (d : uint) : uint_of_digits (digits_of_uint d) = Some d.
Proof. induction d; simpl; try rewrite IHd; reflexivity. Qed.

Lemma str_of_N_nonempty (n : N) : str_of_N n <> [].
Proof.
  unfold str_of_N. destruct n as [|p]; [discriminate|].
  simpl. pose proof (DecimalPos.Unsigned.to_uint_nonnil p) as Hnil.
  destruct (Pos.to_uint p); simpl; congruence.
Qed.

Lemma int_of_digits_str_of_N (n : N) : int_of_digits (str_of_N n) = Some n.
Proof.
  unfold int_of_digits. pose proof (str_of_N_nonempty n) as Hne.
  destruct (str_of_N n) eqn:Hs; [congruence|]. rewrite <- Hs.
  unfold str_of_N. rewrite uint_of_digits_of_uint. simpl.
  now rewrite DecimalN.Unsigned.of_to.
Qed.

Lemma digit_of_char_is_digit (c : N) (d d' : uint) :
  digit_of_char c d = Some d' -> is_digit c = true.
Proof.
  unfold digit_of_char, is_digit.
  destruct c as [|p]; [discriminate|].
  repeat (destruct p as [p|p|]; try discriminate); reflexivity.
Qed.

Lemma uint_of_digits_all (s : str) (d : uint) :
  uint_of_digits s = Some d -> forallb is_digit s = true.
Proof.
  revert d. induction s as [|c s IH]; intros d; simpl; [reflexivity|].
  destruct (uint_of_digits s) as [d'|]; [|discriminate].
  intros Hc. now rewrite (digit_of_char_is_digit _ _ _ Hc), (IH d').
Qed.

Lemma int_of_digits_all (s : str) (n : N) :
  int_of_digits s = Some n -> s <> [] /\ forallb is_digit s = true.
Proof.
  unfold int_of_digits. destruct s as [|c s]; [discriminate|].
  destruct (uint_of_digits (c :: s)) as [d|] eqn:Hd; [|discriminate].
  intros _. split; [discriminate|]. exact (uint_of_digits_all _ _ Hd).
Qed.

Lemma forallb_impl {A} (p q : A -> bool) (l : list A) :
  (forall x, p x = true -> q x = true) ->
  forallb p l = true -> forallb q l = true.
Proof.
  intros Hpq. induction l as [|x l IH]; simpl; [reflexivity|].
  intros [Hx Hl]%andb_true_iff. now rewrite (Hpq _ Hx), IH.
Qed.

Lemma digits_differ (c : N) (s : str) :
  is_digit c = false -> forallb is_digit s = true -> forallb (differs c) s = true.
Proof.
  intros Hc. apply forallb_impl. intros x Hx. unfold differs.
  destruct (N.eqb_spec x c) as [->|]; [congruence|reflexivity].
Qed.

Lemma split_at_app (c : N) (l r : str) :
  forallb (differs c) l = true -> split_at c (l ++ c :: r) = Some (l, r).
Proof.
  induction l as [|x l IH]; simpl.
  - now rewrite N.eqb_refl.
  - intros [Hx Hl]%andb_true_iff. unfold differs in Hx.
    destruct (x =? c)%N; [discriminate|]. now rewrite (IH Hl).
Qed.

Lemma split_at_Some (c : N) (s l r : str) :
  split_at c s = Some (l, r) -> s = l ++ c :: r.
Proof.
  revert l. induction s as [|x s IH]; intros l; simpl; [discriminate|].
  destruct (N.eqb_spec x c) as [->|].
  - now intros [= <- <-].
  - destruct (split_at c s) as [[l' r']|]; [|discriminate].
    intros [= <- <-]. now rewrite (IH l' eq_refl).
Qed.

Lemma strip_cr_snoc (l : str) : strip_cr (l ++ [CR]) = l.
Proof.
  unfold strip_cr. rewrite reverse_snoc. simpl. apply reverse_involutive.
Qed.

Lemma strip_cr_none (l : str) :
  forallb (differs CR) l = true -> strip_cr l = l.
Proof.
  intros Hl. unfold strip_cr. destruct (reverse l) as [|x l'] eqn:Hrev;
    [reflexivity|].
  assert (Hl' : l = reverse l' ++ [x])
    by (now rewrite <- (reverse_involutive l), Hrev, reverse_cons).
  rewrite Hl', forallb_app in Hl. apply andb_true_iff in Hl as [_ Hx].
  simpl in Hx. unfold differs in Hx. now destruct (x =? CR)%N.
Qed.

Lemma strip_cr_inv (l : str) : l = strip_cr l \/ l = strip_cr l ++ [CR].
Proof.
  unfold strip_cr. destruct (reverse l) as [|x l'] eqn:Hrev; [now left|].
  destruct (N.eqb_spec x CR) as [->|]; [right|now left].
  now rewrite <- (reverse_involutive l), Hrev, reverse_cons.
Qed.

Lemma starts_with_app (p r : str) : starts_with p (p ++ r) = true.
Proof. unfold starts_with. now rewrite strip_prefix_app. Qed.

Lemma starts_with_true (p s : str) :
  starts_with p s = true -> exists r, s = p ++ r.
Proof.
  unfold starts_with. destruct (strip_prefix p s) as [r|] eqn:Hp; [|discriminate].
  intros _. exists r. now apply strip_prefix_Some.
Qed.

End PrintStatusFacts.

Section PrintStatusShapes.
Import Py Mars.

Lemma first_line_eol (line e rest : str) :
  eol e ->
  forallb (differs LF) line = true ->
  forallb (differs CR) line = true ->
  first_line (line ++ e ++ rest) = Some (line, rest).
Proof.
  intros [-> | ->] Hlf Hcr; unfold first_line.
  - change (line ++ [LF] ++ rest) with (line ++ LF :: rest).
    now rewrite split_at_app, strip_cr_none.
  - replace (line ++ [CR; LF] ++ rest) with ((line ++ [CR]) ++ LF :: rest)
      by (now rewrite <- app_assoc).
    rewrite split_at_app, strip_cr_snoc; [reflexivity|].
    now rewrite forallb_app, Hlf.
Qed.

Lemma first_line_Some (data line rest : str) :
  first_line data = Some (line, rest) ->
  exists e, eol e /\ data = line ++ e ++ rest.
Proof.
  unfold first_line.
  destruct (split_at LF data) as [[l r]|] eqn:Hsplit; [|discriminate].
  intros [= <- <-]. apply split_at_Some in Hsplit.
  destruct (strip_cr_inv l) as [Hl | Hl].
  - exists [LF]. split; [now left|]. now rewrite <- Hl.
  - exists [CR; LF]. split; [now right|].
    rewrite Hsplit, Hl at 1. now rewrite <- app_assoc.
Qed.

Lemma counts_differ (c : N) (dcur dtotal : str) (cur total : N) :
  is_digit c = false ->
  forallb (differs c) sd_printing_text = true ->
  forallb (differs c) (text "/") = true ->
  int_of_digits dcur = Some cur -> int_of_digits dtotal = Some total ->
  forallb (differs c)
    (sd_printing_text ++ dcur ++ text "/" ++ dtotal) = true.
Proof.
  intros Hc Hsd Hslash [_ Hdcur]%int_of_digits_all [_ Hdtotal]%int_of_digits_all.
  now rewrite !forallb_app, Hsd, Hslash, (digits_differ _ _ Hc Hdcur),
    (digits_differ _ _ Hc Hdtotal).
Qed.

Lemma byte_counts_digits (dcur dtotal : str) (cur total : N) :
  int_of_digits dcur = Some cur -> int_of_digits dtotal = Some total ->
  byte_counts (sd_printing_text ++ dcur ++ text "/" ++ dtotal)
  = Some (cur, total).
Proof.
  intros Hcur Htotal. unfold byte_counts. rewrite strip_prefix_app.
  change (dcur ++ text "/" ++ dtotal) with (dcur ++ N_of_ascii "/" :: dtotal).
  rewrite split_at_app, Hcur, Htotal; [reflexivity|].
  apply int_of_digits_all in Hcur as [_ Hcur].
  now apply digits_differ.
Qed.

Lemma byte_counts_Some (line : str) (cur total : N) :
  byte_counts line = Some (cur, total) ->
  exists dcur dtotal,
    int_of_digits dcur = Some cur /\ int_of_digits dtotal = Some total
    /\ line = sd_printing_text ++ dcur ++ text "/" ++ dtotal.
Proof.
  unfold byte_counts.
  destruct (strip_prefix sd_printing_text line) as [counts|] eqn:Hp;
    [|discriminate].
  destruct (split_at (N_of_ascii "/") counts) as [[dcur dtotal]|] eqn:Hs;
    [|discriminate].
  destruct (int_of_digits dcur) as [c|] eqn:Hc; [|discriminate].
  destruct (int_of_digits dtotal) as [t|] eqn:Ht; [|discriminate].
  intros [= <- <-]. exists dcur, dtotal. repeat split; auto.
  apply strip_prefix_Some in Hp. apply split_at_Some in Hs. now subst.
Qed.

Lemma print_status_not_printing (data : str) :
  not_printing_reply data ->
  print_status_of_reply data
  = Ok {| state := IDLE; current_byte := None; total_bytes := None |}.
Proof.
  intros (e & rest & He & ->). unfold print_status_of_reply.
  rewrite (first_line_eol _ _ _ He) by reflexivity.
  rewrite starts_with_app. cbn [negb].
  now rewrite bool_decide_eq_true_2.
Qed.

Lemma print_status_sd_printing (data : str) (cur total : N) :
  sd_printing_reply data cur total ->
  print_status_of_reply data
  = Ok {| state := if (cur =? 0)%N then STARTING_PRINT else PRINTING;
          current_byte := Some cur; total_bytes := Some total |}.
Proof.
  intros (dcur & dtotal & e & rest & He & Hcur & Htotal & ->).
  unfold print_status_of_reply.
  replace (sd_printing_text ++ dcur ++ text "/" ++ dtotal ++ e ++ text "ok" ++ rest)
    with ((sd_printing_text ++ dcur ++ text "/" ++ dtotal) ++ e ++ text "ok" ++ rest)
    by (now rewrite <- !app_assoc).
  rewrite (first_line_eol _ _ _ He)
    by (eapply counts_differ; eauto; reflexivity).
  rewrite starts_with_app. cbn [negb].
  rewrite bool_decide_eq_false_2 by discriminate.
  now rewrite (byte_counts_digits _ _ _ _ Hcur Htotal).
Qed.

Lemma print_status_Ok (data : str) (st : PrintStatus) :
  print_status_of_reply data = Ok st ->
  (not_printing_reply data
   /\ st = {| state := IDLE; current_byte := None; total_bytes := None |})
  \/ (exists cur total,
        sd_printing_reply data cur total
        /\ st = {| state := if (cur =? 0)%N then STARTING_PRINT else PRINTING;
                   current_byte := Some cur; total_bytes := Some total |}).
Proof.
  unfold print_status_of_reply.
  destruct (first_line data) as [[line rest]|] eqn:Hline; [|discriminate].
  apply first_line_Some in Hline as (e & He & ->).
  destruct (starts_with (text "ok") rest) eqn:Hok; [|discriminate].
  apply starts_with_true in Hok as [rest' ->]. cbn [negb].
  destruct (bool_decide (line = not_printing_text)) eqn:Hnp.
  - apply bool_decide_eq_true_1 in Hnp as ->. intros [= <-]. left.
    split; [|reflexivity]. now exists e, rest'.
  - destruct (byte_counts line) as [[cur total]|] eqn:Hbc; [|discriminate].
    intros [= <-]. right. exists cur, total. split; [|reflexivity].
    apply byte_counts_Some in Hbc as (dcur & dtotal & Hcur & Htotal & ->).
    exists dcur, dtotal, e, rest'. repeat split; auto.
    now rewrite <- !app_assoc.
Qed.

Lemma print_status_Raise (data : str) (e : exn) :
  print_status_of_reply data = Raise e -> e = UnexpectedResponse data.
Proof.
  unfold print_status_of_reply.
  destruct (first_line data) as [[line rest]|]; [|congruence].
  destruct (negb _); [congruence|].
  destruct (bool_decide _); [discriminate|].
  destruct (byte_counts line) as [[cur total]|]; [discriminate|congruence].
Qed.

End PrintStatusShapes.

Section PrintStatusClaim.
Import Py Mars.
Context {T : Type} `{Transport T}.

Lemma get_print_status_connected (self : ElegooMars T) (port port1 port2 : T)
    (line : bytes) :
  _serial_port self = Some port ->
  serial_write (b "M27") port = (Ok tt, port1) ->
  serial_readline port1 = (Ok line, port2) ->
  (get_print_status self).1 = rbind (decode line) print_status_of_reply.
Proof.
  intros Hport Hw Hr. unfold get_print_status, bind.
  rewrite (send_and_read_connected _ _ _ _ _ _ Hport Hw Hr).
  now destruct (decode line).
Qed.

(** C1.  On an opened client whose port takes the command [M27] and
    answers with the text [data], [get_print_status] returns IDLE with no
    byte counts when [data] is [Error:It's not printing now!] followed by
    an [ok] line; it returns the two byte counts when [data] is
    [SD printing byte <cur>/<total>] followed by [ok], with state
    STARTING_PRINT exactly when [cur] is 0 and PRINTING exactly when it is
    larger; for every other text it raises the unexpected-response
    failure with the text. *)
Theorem get_print_status_classifies (self : ElegooMars T) (port port1 port2 : T)
    (line : bytes) (data : str) :
  _serial_port self = Some port ->
  serial_write (b "M27") port = (Ok tt, port1) ->
  serial_readline port1 = (Ok line, port2) ->
  decode line = Ok data ->
  (not_printing_reply data ->
     (get_print_status self).1
     = Ok {| state := IDLE; current_byte := None; total_bytes := None |})
  /\ (forall cur total : N,
        sd_printing_reply data cur total ->
        exists st : PrintStatus,
          (get_print_status self).1 = Ok st
          /\ current_byte st = Some cur /\ total_bytes st = Some total
          /\ (state st = STARTING_PRINT <-> cur = 0%N)
          /\ (state st = PRINTING <-> (0 < cur)%N))
  /\ (~ not_printing_reply data ->
      (forall cur total : N, ~ sd_printing_reply data cur total) ->
      (get_print_status self).1 = Raise (UnexpectedResponse data)).
Proof.
  intros Hport Hw Hr Hd.
  rewrite (get_print_status_connected _ _ _ _ _ Hport Hw Hr), Hd. cbn [rbind].
  split; [|split].
  - apply print_status_not_printing.
  - intros cur total Hsd. eexists. split; [exact (print_status_sd_printing _ _ _ Hsd)|].
    cbn [current_byte total_bytes state]. repeat split; trivial.
    + destruct (N.eqb_spec cur 0); [trivial|discriminate].
    + now intros ->.
    + destruct (N.eqb_spec cur 0); [discriminate|lia].
    + intros Hpos. destruct (N.eqb_spec cur 0); [lia|reflexivity].
  - intros Hnp Hsd.
    destruct (print_status_of_reply data) as [st|e] eqn:Hst.
    + apply print_status_Ok in Hst as [[Hnp' _] | (cur & total & Hsd' & _)].
      * now destruct Hnp.
      * now destruct (Hsd cur total).
    + now rewrite (print_status_Raise _ _ Hst).
Qed.

End PrintStatusClaim.

Lemma get_print_status_classifies_witness :
  exists st : Mars.PrintStatus,
    (@Mars.get_print_status _ (Mars.mock_transport Mars.starting_print_reply)
       (Mars.opened Mars.starting_print_reply)).1 = Ok st
    /\ Mars.state st = Mars.STARTING_PRINT
    /\ Mars.current_byte st = Some 0%N
    /\ Mars.total_bytes st = Some 23543968%N.
Proof.
  destruct (@get_print_status_classifies _
              (Mars.mock_transport Mars.starting_print_reply)
              (Mars.opened Mars.starting_print_reply) _ _ _
              Mars.starting_print_reply _ eq_refl eq_refl eq_refl eq_refl)
    as (_ & Hsd & _).
  destruct (Hsd 0%N 23543968%N) as (st & Hst & Hcur & Htotal & Hstart & _).
  - exists (text "0"), (text "23543968"), [CR; LF], (text " N:0" ++ [CR; LF]).
    repeat split. now right.
  - exists st. repeat split; auto. now apply Hstart.
Defined.

(** * The command of [move_by] *)

Section MoveBy.
Import Py Mars.

Lemma round_half_even_near (n d : Z) :
  0 <= n -> 0 < d ->
  0 <= round_half_even n d /\ 2 * Z.abs (n - round_half_even n d * d) <= d.
Proof.
  intros Hn Hd. unfold round_half_even.
  pose proof (Z.div_mod n d ltac:(lia)) as Hdiv.
  pose proof (Z.mod_pos_bound n d Hd) as Hmod.
  pose proof (Z.div_pos n d Hn Hd) as Hq.
  set (q := n / d) in *. set (r := n mod d) in *.
  destruct (Z.ltb_spec (2 * r) d); [split; [lia|nia]|].
  destruct (Z.ltb_spec d (2 * r)); [split; [lia|nia]|].
  destruct (Z.even q); split; try lia; nia.
Qed.

Lemma tenths_near (s : bool) (m : positive) (e : Z) :
  let x := S754_finite s m e in
  0 <= tenths m e
  /\ 2 * Z.abs (10 * abs_num x - tenths m e * abs_den x) <= abs_den x.
Proof.
  unfold tenths, abs_num, abs_den. cbv zeta.
  destruct (Z.leb_spec 0 e) as [He | He].
  - rewrite Z.max_r, Z.max_l by lia.
    assert (0 < 2 ^ e) by (apply Z.pow_pos_nonneg; lia).
    change (2 ^ 0) with 1. split; [nia|].
    replace (10 * (Z.pos m * 2 ^ e) - Z.pos m * 10 * 2 ^ e * 1) with 0 by ring.
    simpl. lia.
  - rewrite Z.max_l, Z.max_r by lia.
    assert (Hd : 0 < 2 ^ (- e)) by (apply Z.pow_pos_nonneg; lia).
    change (2 ^ 0) with 1.
    destruct (round_half_even_near (Z.pos m * 10) (2 ^ (- e))) as [Hpos Hnear];
      [lia|exact Hd|].
    split; [exact Hpos|].
    replace (10 * (Z.pos m * 1)) with (Z.pos m * 10) by ring. exact Hnear.
Qed.

Lemma str_of_N_digit (d : N) :
  (d < 10)%N -> str_of_N d = [(48 + d)%N].
Proof.
  intros Hd.
  assert (Hcases : d = 0%N \/ d = 1%N \/ d = 2%N \/ d = 3%N \/ d = 4%N
                   \/ d = 5%N \/ d = 6%N \/ d = 7%N \/ d = 8%N \/ d = 9%N)
    by lia.
  repeat destruct Hcases as [-> | Hcases]; try reflexivity.
  now subst.
Qed.

Lemma format_1f_finite (x : float) :
  is_finite x = true ->
  exists whole digit : N,
    (digit < 10)%N
    /\ format_1f x
       = sign_str (sign_bit x) ++ str_of_N whole ++ text "." ++ [(48 + digit)%N]
    /\ 2 * Z.abs (10 * abs_num x
                  - (10 * Z.of_N whole + Z.of_N digit) * abs_den x)
       <= abs_den x.
Proof.
  destruct x as [s|s| |s m e]; try discriminate; intros _.
  - exists 0%N, 0%N. repeat split. simpl. lia.
  - destruct (tenths_near s m e) as [Hpos Hnear].
    set (t := Z.to_N (tenths m e)).
    assert (Ht : Z.of_N t = tenths m e) by (unfold t; lia).
    assert (Hdigit : (t mod 10 < 10)%N) by (apply N.mod_lt; lia).
    exists (t / 10)%N, (t mod 10)%N. split; [exact Hdigit|]. split.
    + unfold format_1f. fold t. now rewrite (str_of_N_digit _ Hdigit).
    + replace (10 * Z.of_N (t / 10) + Z.of_N (t mod 10)) with (tenths m e);
        [exact Hnear|].
      rewrite <- Ht. pose proof (N.div_mod t 10 ltac:(lia)). lia.
Qed.

Lemma send_and_read_mock (reply data : bytes) :
  @_send_and_read _ (mock_transport reply) data (opened reply)
  = (decode reply,
     {| _serial_port :=
          Some {| readline_return_value := reply;
                  method_calls := [call_write data; call_readline] |} |}).
Proof. reflexivity. Qed.

(** Outside the finite floats the field has no digits at all. *)
Lemma format_1f_not_finite (s : bool) :
  format_1f (S754_infinity s) = sign_str s ++ text "inf"
  /\ format_1f S754_nan = text "nan".
Proof. split; reflexivity. Qed.

Lemma move_by_writes (reply : bytes) (z_dist_mm : float) (mm_per_min : option Z) :
  writes (@move_by _ (mock_transport reply) z_dist_mm mm_per_min
            (opened reply)).2
  = [ascii_bytes (text "G0 Z" ++ format_1f z_dist_mm ++ text " F"
                  ++ str_of_int (default 600 mm_per_min) ++ text " I0")].
Proof.
  unfold move_by, bind, lift. rewrite encode_ascii.
  - rewrite send_and_read_mock.
    destruct (decode reply) as [response|]; [|reflexivity].
    destruct (contains (text "ok") response); reflexivity.
  - rewrite !is_ascii_app, format_1f_ascii, str_of_int_ascii. reflexivity.
Qed.

(** C2.  For every finite delta and every feed rate, [move_by] writes
    [G0 Z<delta> F<rate> I0], where [<delta>] is a minus sign when the
    delta is negative, the digits of a whole number, a point and exactly
    one digit, the two together being the delta rounded to the nearest
    tenth; the feed rate is 600 when none is given.  So [move_by(10)]
    writes [G0 Z10.0 F600 I0], [move_by(-10)] writes [G0 Z-10.0 F600 I0]
    and [move_by(15.3, mm_per_min=30)] writes [G0 Z15.3 F30 I0]. *)
Theorem move_by_writes_one_decimal :
  (forall (reply : bytes) (delta : float) (mm_per_min : option Z),
      is_finite delta = true ->
      exists whole digit : N,
        (digit < 10)%N
        /\ writes (@move_by _ (mock_transport reply) delta mm_per_min
                     (opened reply)).2
           = [b "G0 Z"
              ++ ascii_bytes (sign_str (sign_bit delta) ++ str_of_N whole
                              ++ text "." ++ [(48 + digit)%N])
              ++ b " F" ++ ascii_bytes (str_of_int (default 600 mm_per_min))
              ++ b " I0"]
        /\ 2 * Z.abs (10 * abs_num delta
                      - (10 * Z.of_N whole + Z.of_N digit) * abs_den delta)
           <= abs_den delta)
  /\ writes (@move_by _ (mock_transport ok_reply) float_10 None
               (opened ok_reply)).2 = [b "G0 Z10.0 F600 I0"]
  /\ writes (@move_by _ (mock_transport ok_reply) float_minus_10 None
               (opened ok_reply)).2 = [b "G0 Z-10.0 F600 I0"]
  /\ writes (@move_by _ (mock_transport ok_reply) float_15_3 (Some 30)
               (opened ok_reply)).2 = [b "G0 Z15.3 F30 I0"].
Proof.
  split; [|repeat split; vm_compute; reflexivity].
  intros reply delta mm_per_min Hfin.
  destruct (format_1f_finite delta Hfin) as (whole & digit & Hdigit & Hfmt & Hnear).
  exists whole, digit. split; [exact Hdigit|]. split; [|exact Hnear].
  rewrite move_by_writes, Hfmt. now rewrite !ascii_bytes_app.
Qed.

End MoveBy.

Lemma move_by_writes_one_decimal_witness :
  exists whole digit : N,
    (digit < 10)%N
    /\ Mars.writes (@Mars.move_by _ (Mars.mock_transport Mars.ok_reply)
                      Py.float_15_3 None (Mars.opened Mars.ok_reply)).2
       = [b "G0 Z"
          ++ Py.ascii_bytes (Py.str_of_N whole ++ text "." ++ [(48 + digit)%N])
          ++ b " F600 I0"].
Proof.
  destruct (proj1 move_by_writes_one_decimal Mars.ok_reply Py.float_15_3 None
              eq_refl) as (whole & digit & Hdigit & Hwrites & _).
  exists whole, digit. split; [exact Hdigit|exact Hwrites].
Defined.

(** * More on the configuration getters *)

Section ConfigSearch.
Import Config.
Context `{Env}.

(** The configuration file is the first of [config.toml],
    [~/.mariner/config.toml] and [/etc/mariner/config.toml] that exists
    and is not a directory; a later candidate is used only when every
    earlier one is missing or a directory, and there is no file exactly
    when none qualifies. *)
Theorem config_file_is_first_candidate :
  (eligible "config.toml" = true ->
     __get_config_filename = Some (path_absolute "config.toml"))
  /\ (eligible "config.toml" = false ->
      eligible "~/.mariner/config.toml" = true ->
      __get_config_filename = Some (path_absolute "~/.mariner/config.toml"))
  /\ (eligible "config.toml" = false ->
      eligible "~/.mariner/config.toml" = false ->
      eligible "/etc/mariner/config.toml" = true ->
      __get_config_filename = Some (path_absolute "/etc/mariner/config.toml"))
  /\ (__get_config_filename = None <->
      Forall (fun p => eligible p = false) potential_paths).
Proof.
  unfold __get_config_filename, potential_paths, eligible. cbn [List.find].
  repeat split.
  - now intros ->.
  - now intros -> ->.
  - now intros -> -> ->.
  - intros Hnone.
    destruct (path_exists "config.toml" && _) eqn:H1; [discriminate|].
    destruct (path_exists "~/.mariner/config.toml" && _) eqn:H2; [discriminate|].
    destruct (path_exists "/etc/mariner/config.toml" && _) eqn:H3; [discriminate|].
    repeat constructor; assumption.
  - intros Hall. repeat (apply Forall_cons_1 in Hall as [-> Hall]).
    reflexivity.
Qed.

(** When the configuration file is found but cannot be read or is not
    valid TOML, no getter falls back to a default: each of them raises the
    failure of [open] or of [toml.loads]. *)
Theorem load_failure_reaches_every_getter (filename : string) (e : exn) :
  __get_config_filename = Some filename ->
  open_read filename = Raise e
  \/ (exists toml_string,
        open_read filename = Ok toml_string
        /\ toml_loads toml_string = Raise e) ->
  get_files_directory = Raise e
  /\ get_printer_display_name = Raise e
  /\ get_printer_serial_port = Raise e
  /\ get_printer_baudrate = Raise e
  /\ get_relay_pin = Raise e
  /\ get_relay_initial_value = Raise e
  /\ get_relay_active_high = Raise e
  /\ get_http_host = Raise e
  /\ get_http_port = Raise e
  /\ get_cache_directory = Raise e
  /\ get_ha_srv = Raise e /\ get_ha_usr = Raise e
  /\ get_ha_pass = Raise e /\ get_ha_topic = Raise e.
Proof.
  intros Hfile Hfail.
  assert (Hc : _get_config = Raise e).
  { unfold _get_config. rewrite Hfile.
    destruct Hfail as [-> | (toml_string & -> & Hparse)]; [reflexivity|].
    exact Hparse. }
  cbv beta delta
    [get_files_directory get_printer_display_name get_printer_serial_port
     get_printer_baudrate get_relay_pin get_relay_initial_value
     get_relay_active_high get_http_host get_http_port get_cache_directory
     get_ha_srv get_ha_usr get_ha_pass get_ha_topic].
  rewrite Hc. repeat split.
Qed.

End ConfigSearch.

Lemma config_file_is_first_candidate_witness :
  @Config.__get_config_filename (Config.etc_file ∅)
  = Some "/etc/mariner/config.toml".
Proof.
  destruct (@config_file_is_first_candidate (Config.etc_file ∅))
    as (_ & _ & Hthird & _).
  exact (Hthird eq_refl eq_refl eq_refl).
Defined.

Lemma load_failure_reaches_every_getter_witness :
  @Config.get_printer_serial_port Config.invalid_file
  = Raise (TomlDecodeError "Empty value is invalid").
Proof.
  destruct (@load_failure_reaches_every_getter Config.invalid_file
              "/config.toml" (TomlDecodeError "Empty value is invalid")
              eq_refl)
    as (_ & _ & Hport & _).
  - right. exists "printer = ". split; reflexivity.
  - exact Hport.
Defined.

Section ConfigSettings.
Import Config.
Context `{Env}.

(** A setting given as a string is returned as that string, whatever else
    the configuration holds: [files_directory] at the top level,
    [display_name] and [serial_port] of [printer], [host] of [http] and
    [directory] of [cache].  An empty display name is returned as the
    empty string, not as [None]. *)
Theorem string_settings_are_returned (config : gmap string value) (s : string) :
  _get_config = Ok config ->
  (config !! "files_directory" = Some (VStr s) ->
     get_files_directory = Ok (MkPath s))
  /\ (forall printer : gmap string value,
        config !! "printer" = Some (VDict printer) ->
        (printer !! "display_name" = Some (VStr s) ->
           get_printer_display_name = Ok (Some s))
        /\ (printer !! "serial_port" = Some (VStr s) ->
              get_printer_serial_port = Ok s))
  /\ (forall http : gmap string value,
        config !! "http" = Some (VDict http) ->
        http !! "host" = Some (VStr s) -> get_http_host = Ok s)
  /\ (forall cache : gmap string value,
        config !! "cache" = Some (VDict cache) ->
        cache !! "directory" = Some (VStr s) -> get_cache_directory = Ok s).
Proof.
  intros Hc. split; [|split; [|split]].
  - intros Hkey. run_getter. now rewrite (dict_get_present _ _ _ _ Hkey).
  - intros printer Hsec. split; intros Hkey; run_getter;
      now rewrite (dict_get_present _ _ _ _ Hsec), (dict_get_present _ _ _ _ Hkey).
  - intros http Hsec Hkey. run_getter.
    now rewrite (dict_get_present _ _ _ _ Hsec), (dict_get_present _ _ _ _ Hkey).
  - intros cache Hsec Hkey. run_getter.
    now rewrite (dict_get_present _ _ _ _ Hsec), (dict_get_present _ _ _ _ Hkey).
Qed.

(** A setting read with [int] is returned unchanged when it is an
    integer and as 1 or 0 when it is a boolean; when it is a table, [int]
    raises [TypeError].  This holds for [baudrate] of [printer], [port] of
    [http], and [relay_pin] and [initial_value] of [relay_board]. *)
Theorem integer_settings_are_returned (config : gmap string value)
    (z : Z) (flag : bool) (table : gmap string value) :
  _get_config = Ok config ->
  (forall printer : gmap string value,
      config !! "printer" = Some (VDict printer) ->
      (printer !! "baudrate" = Some (VInt z) -> get_printer_baudrate = Ok z)
      /\ (printer !! "baudrate" = Some (VBool flag) ->
            get_printer_baudrate = Ok (if flag then 1 else 0))
      /\ (printer !! "baudrate" = Some (VDict table) ->
            get_printer_baudrate = Raise TypeError))
  /\ (forall http : gmap string value,
        config !! "http" = Some (VDict http) ->
        (http !! "port" = Some (VInt z) -> get_http_port = Ok z)
        /\ (http !! "port" = Some (VBool flag) ->
              get_http_port = Ok (if flag then 1 else 0))
        /\ (http !! "port" = Some (VDict table) ->
              get_http_port = Raise TypeError))
  /\ (forall relay_board : gmap string value,
        config !! "relay_board" = Some (VDict relay_board) ->
        (relay_board !! "relay_pin" = Some (VInt z) ->
           get_relay_pin = Ok (Some z))
        /\ (relay_board !! "relay_pin" = Some (VBool flag) ->
              get_relay_pin = Ok (Some (if flag then 1 else 0)))
        /\ (relay_board !! "relay_pin" = Some (VDict table) ->
              get_relay_pin = Raise TypeError)
        /\ (relay_board !! "initial_value" = Some (VInt z) ->
              get_relay_initial_value = Ok (Some z))
        /\ (relay_board !! "initial_value" = Some (VBool flag) ->
              get_relay_initial_value = Ok (Some (if flag then 1 else 0)))
        /\ (relay_board !! "initial_value" = Some (VDict table) ->
              get_relay_initial_value = Raise TypeError)).
Proof.
  intros Hc. split; [|split]; intros section Hsec; repeat split;
    intros Hkey; run_getter;
    now rewrite (dict_get_present _ _ _ _ Hsec), (dict_get_present _ _ _ _ Hkey).
Qed.

(** [get_relay_active_high] returns the truth value that [bool] gives the
    setting, not the setting read as a boolean: a non-empty string is
    true, so the string [false] is, and a number is true unless it is
    zero. *)
Theorem active_high_is_truthiness (config relay_board : gmap string value)
    (v : value) :
  _get_config = Ok config ->
  config !! "relay_board" = Some (VDict relay_board) ->
  relay_board !! "active_high" = Some v ->
  get_relay_active_high = Ok (Some (py_bool v))
  /\ (forall flag : bool, v = VBool flag ->
        get_relay_active_high = Ok (Some flag))
  /\ (forall s : string, v = VStr s ->
        get_relay_active_high = Ok (Some (negb (String.eqb s ""))))
  /\ (v = VStr "false" -> get_relay_active_high = Ok (Some true))
  /\ (forall z : Z, v = VInt z ->
        get_relay_active_high = Ok (Some (negb (z =? 0)))).
Proof.
  intros Hc Hsec Hkey.
  assert (Hget : get_relay_active_high = Ok (Some (py_bool v))).
  { run_getter.
    now rewrite (dict_get_present _ _ _ _ Hsec), (dict_get_present _ _ _ _ Hkey). }
  rewrite Hget. repeat split; try (intros ? ->; reflexivity).
  intros ->. reflexivity.
Qed.

End ConfigSettings.

Lemma string_settings_are_returned_witness :
  @Config.get_files_directory (Config.with_config Config.full_config)
  = Ok (Config.MkPath "/srv/prints").
Proof.
  destruct (@string_settings_are_returned
              (Config.with_config Config.full_config)
              Config.full_config "/srv/prints" eq_refl) as [Hdir _].
  apply Hdir. vm_compute. reflexivity.
Defined.

Lemma integer_settings_are_returned_witness :
  @Config.get_relay_initial_value (Config.with_config Config.full_config)
  = Ok (Some 1).
Proof.
  destruct (@integer_settings_are_returned
              (Config.with_config Config.full_config) Config.full_config
              17 true ∅ eq_refl)
    as (_ & _ & Hrelay).
  destruct (Hrelay {[ "relay_pin" := Config.VInt 17;
                      "initial_value" := Config.VBool true;
                      "active_high" := Config.VStr "false" ]})
    as (_ & _ & _ & _ & Hbool & _).
  - vm_compute. reflexivity.
  - apply Hbool. vm_compute. reflexivity.
Defined.

Lemma active_high_is_truthiness_witness :
  @Config.get_relay_active_high (Config.with_config Config.full_config)
  = Ok (Some true).
Proof.
  destruct (@active_high_is_truthiness
              (Config.with_config Config.full_config) Config.full_config
              {[ "relay_pin" := Config.VInt 17;
                 "initial_value" := Config.VBool true;
                 "active_high" := Config.VStr "false" ]}
              (Config.VStr "false"))
    as (_ & _ & _ & Hfalse & _).
  - reflexivity.
  - vm_compute. reflexivity.
  - vm_compute. reflexivity.
  - exact (Hfalse eq_refl).
Defined.

Lemma ha_getters_raise_witness :
  @Config.get_ha_topic (Config.with_config Config.homeassistant_config)
  = Raise (NameError "printer_config").
Proof.
  destruct (@ha_getters_raise (Config.with_config Config.homeassistant_config)
              Config.homeassistant_config
              {[ "address" := Config.VStr "mqtt.local" ]} eq_refl)
    as (_ & _ & _ & Htopic).
  - vm_compute. reflexivity.
  - exact Htopic.
Defined.

Section ConfigSections.
Import Config.

Lemma py_str_ext (E1 E2 : Env) (v : value) :
  (forall d, @str_dict E1 d = @str_dict E2 d) ->
  @py_str E1 v = @py_str E2 v.
Proof. intros Hstr. destruct v; simpl; auto. Qed.

Lemma py_int_ext (E1 E2 : Env) (v : value) :
  (forall s, @int_str E1 s = @int_str E2 s) ->
  @py_int E1 v = @py_int E2 v.
Proof. intros Hint. destruct v; simpl; auto. Qed.

(** The getters of a section read nothing but that section: in two
    environments whose configurations agree on a section (and whose
    builtins agree), the getters of that section return the same.
    Likewise [get_files_directory] reads the [files_directory] key
    only. *)
Theorem getters_read_their_section_only (E1 E2 : Env)
    (config1 config2 : gmap string value) :
  (forall d, @str_dict E1 d = @str_dict E2 d) ->
  (forall s, @int_str E1 s = @int_str E2 s) ->
  @_get_config E1 = Ok config1 ->
  @_get_config E2 = Ok config2 ->
  (config1 !! "files_directory" = config2 !! "files_directory" ->
     @get_files_directory E1 = @get_files_directory E2)
  /\ (config1 !! "printer" = config2 !! "printer" ->
      @get_printer_display_name E1 = @get_printer_display_name E2
      /\ @get_printer_serial_port E1 = @get_printer_serial_port E2
      /\ @get_printer_baudrate E1 = @get_printer_baudrate E2)
  /\ (config1 !! "relay_board" = config2 !! "relay_board" ->
      @get_relay_pin E1 = @get_relay_pin E2
      /\ @get_relay_initial_value E1 = @get_relay_initial_value E2
      /\ @get_relay_active_high E1 = @get_relay_active_high E2)
  /\ (config1 !! "http" = config2 !! "http" ->
      @get_http_host E1 = @get_http_host E2
      /\ @get_http_port E1 = @get_http_port E2)
  /\ (config1 !! "cache" = config2 !! "cache" ->
      @get_cache_directory E1 = @get_cache_directory E2)
  /\ (config1 !! "homeassistant" = config2 !! "homeassistant" ->
      @get_ha_srv E1 = @get_ha_srv E2 /\ @get_ha_usr E1 = @get_ha_usr E2
      /\ @get_ha_pass E1 = @get_ha_pass E2
      /\ @get_ha_topic E1 = @get_ha_topic E2).
Proof.
  intros Hstr Hint Hc1 Hc2.
  assert (Hget : forall key dflt,
             config1 !! key = config2 !! key ->
             dict_get config1 key dflt = dict_get config2 key dflt)
    by (intros key dflt Hkey; unfold dict_get; now rewrite Hkey).
  assert (Hsame : forall v, @py_str E1 v = @py_str E2 v)
    by (intros v; now apply py_str_ext).
  assert (Hsame' : forall v, @py_int E1 v = @py_int E2 v)
    by (intros v; now apply py_int_ext).
  split; [|split; [|split; [|split; [|split]]]]; intros Hkey;
    repeat split;
    cbv beta delta
      [get_files_directory get_printer_display_name get_printer_serial_port
       get_printer_baudrate get_relay_pin get_relay_initial_value
       get_relay_active_high get_http_host get_http_port get_cache_directory
       get_ha_srv get_ha_usr get_ha_pass get_ha_topic];
    rewrite Hc1, Hc2; cbn [rbind]; rewrite (Hget _ _ Hkey);
    rewrite ?Hsame; try reflexivity;
    destruct (dict_get config2 _ _) as [| | | | |d]; try reflexivity;
    rewrite ?Hsame, ?Hsame'; try reflexivity.
  destruct (dict_get d "display_name" VNone); try reflexivity;
    now rewrite Hsame.
Qed.

End ConfigSections.

Lemma getters_read_their_section_only_witness :
  @Config.get_printer_baudrate (Config.with_config Config.full_config)
  = @Config.get_printer_baudrate (Config.with_config Config.other_http_config).
Proof.
  destruct (@getters_read_their_section_only
              (Config.with_config Config.full_config)
              (Config.with_config Config.other_http_config)
              Config.full_config Config.other_http_config
              (fun _ => eq_refl) (fun _ => eq_refl) eq_refl eq_refl)
    as (_ & Hprinter & _).
  destruct Hprinter as (_ & _ & Hbaud); [vm_compute; reflexivity|exact Hbaud].
Defined.

(** * More on [get_firmware_version] *)

Section VersionMore.
Import Py Re Mars.
Context {T : Type} `{Transport T}.

(** For any text read back, [get_firmware_version] returns the token [t]
    exactly when the text is [ok t] followed by one newline, or by two
    (the [$] of the pattern also matches before a final newline), with
    [t] a non-empty run of the characters [a-zA-Z0-9_.]. *)
Theorem get_firmware_version_accepts (self : ElegooMars T) (port port1 port2 : T)
    (line : bytes) (data t : str) :
  _serial_port self = Some port ->
  serial_write (b "M4002") port = (Ok tt, port1) ->
  serial_readline port1 = (Ok line, port2) ->
  decode line = Ok data ->
  (get_firmware_version self).1 = Ok (Some t) <->
  (data = text "ok " ++ t ++ [LF] \/ data = text "ok " ++ t ++ [LF; LF])
  /\ t <> [] /\ forallb version_char t = true.
Proof.
  intros Hport Hw Hr Hd.
  rewrite (get_firmware_version_connected _ _ _ _ _ Hport Hw Hr).
  rewrite (firmware_version_of_text _ _ Hd), <- version_token_Some.
  destruct (version_token data); split; congruence.
Qed.

(** A version reply that ends with [\r\n], as the other replies of the
    firmware do, or that has no line end at all, is rejected: the call
    raises the invalid-response failure although the token is well
    formed. *)
Theorem get_firmware_version_rejects_other_line_ends (self : ElegooMars T)
    (port port1 port2 : T) (line : bytes) (data t : str) :
  _serial_port self = Some port ->
  serial_write (b "M4002") port = (Ok tt, port1) ->
  serial_readline port1 = (Ok line, port2) ->
  decode line = Ok data ->
  forallb version_char t = true ->
  data = text "ok " ++ t ++ [CR; LF] \/ data = text "ok " ++ t ->
  (get_firmware_version self).1 = Raise (AssertionError invalid_status_message).
Proof.
  intros Hport Hw Hr Hd Ht Hdata.
  rewrite (get_firmware_version_connected _ _ _ _ _ Hport Hw Hr).
  rewrite (firmware_version_of_text _ _ Hd).
  destruct (version_token data) as [t'|] eqn:Htok; [exfalso|reflexivity].
  apply version_token_Some in Htok as (Hshape & _ & Ht').
  assert (Hno : forall c u v, version_char c = false -> t = u ++ c :: v -> False).
  { intros c u v Hc ->. rewrite forallb_app in Ht. simpl in Ht.
    rewrite Hc in Ht. now rewrite andb_false_r in Ht. }
  assert (Hno' : forall c u v, version_char c = false -> t' = u ++ c :: v -> False).
  { intros c u v Hc ->. rewrite forallb_app in Ht'. simpl in Ht'.
    rewrite Hc in Ht'. now rewrite andb_false_r in Ht'. }
  destruct Hdata as [-> | ->];
    destruct Hshape as [Heq | Heq]; apply app_inv_head in Heq.
  - change [CR; LF] with ([CR] ++ [LF]) in Heq. rewrite app_assoc in Heq.
    apply app_inj_tail in Heq as [Heq _].
    apply (Hno' CR t [] eq_refl). now rewrite Heq.
  - change [CR; LF] with ([CR] ++ [LF]) in Heq.
    change [LF; LF] with ([LF] ++ [LF]) in Heq. rewrite !app_assoc in Heq.
    apply app_inj_tail in Heq as [Heq _].
    apply app_inj_tail in Heq as [_ Heq]. discriminate.
  - apply (Hno LF t' [] eq_refl). exact Heq.
  - apply (Hno LF t' [LF] eq_refl). exact Heq.
Qed.

(** [get_firmware_version] never returns [None] and never an empty
    token: whatever the client and the port, a call that returns returns
    a non-empty run of the characters [a-zA-Z0-9_.]. *)
Theorem get_firmware_version_returns_a_token (self : ElegooMars T)
    (r : option str) :
  (get_firmware_version self).1 = Ok r ->
  exists t : str, r = Some t /\ t <> [] /\ forallb version_char t = true.
Proof.
  unfold get_firmware_version, bind, _send_and_read.
  destruct (_serial_port self) as [port|]; cbn [none_throws]; [|discriminate].
  destruct (serial_write (b "M4002") port) as [[u|e] port1]; [|discriminate].
  destruct (serial_readline port1) as [[line|e] port2]; cbn [rbind];
    [|discriminate].
  destruct (decode line) as [data|e]; [|discriminate].
  unfold lift. rewrite search_version_re.
  destruct (version_token data) as [t|] eqn:Htok; cbn; [|discriminate].
  intros [= <-]. exists t. split; [reflexivity|].
  now apply version_token_Some in Htok as (_ & Hne & Hall).
Qed.

End VersionMore.

Lemma get_firmware_version_accepts_witness :
  (@Mars.get_firmware_version _
     (Mars.mock_transport Mars.version_reply_two_newlines)
     (Mars.opened Mars.version_reply_two_newlines)).1
  = Ok (Some (text "V4.3.4_LCDC")).
Proof.
  apply (@get_firmware_version_accepts _
           (Mars.mock_transport Mars.version_reply_two_newlines)
           (Mars.opened Mars.version_reply_two_newlines) _ _ _
           Mars.version_reply_two_newlines
           (text "ok V4.3.4_LCDC" ++ [LF; LF]) (text "V4.3.4_LCDC")
           eq_refl eq_refl eq_refl eq_refl).
  split; [now right|]. split; [discriminate|reflexivity].
Defined.

Lemma get_firmware_version_rejects_other_line_ends_witness :
  (@Mars.get_firmware_version _ (Mars.mock_transport Mars.version_reply_crlf)
     (Mars.opened Mars.version_reply_crlf)).1
  = Raise (AssertionError Mars.invalid_status_message).
Proof.
  apply (@get_firmware_version_rejects_other_line_ends _
           (Mars.mock_transport Mars.version_reply_crlf)
           (Mars.opened Mars.version_reply_crlf) _ _ _
           Mars.version_reply_crlf
           (text "ok V4.3.4_LCDC" ++ [CR; LF]) (text "V4.3.4_LCDC")
           eq_refl eq_refl eq_refl eq_refl eq_refl).
  now left.
Defined.

Lemma get_firmware_version_returns_a_token_witness :
  exists t : str,
    Some (text "V4.3.4_LCDC") = Some t /\ t <> []
    /\ forallb Mars.version_char t = true.
Proof.
  apply (@get_firmware_version_returns_a_token _
           (Mars.mock_transport Mars.version_reply)
           (Mars.opened Mars.version_reply)).
  vm_compute. reflexivity.
Defined.

(** * Sequences of calls *)

Section CallSequences.
Import Py Re Mars.
Context {T : Type} `{Transport T}.

Lemma send_and_read_keeps_port (cmd : bytes) (self : ElegooMars T) :
  is_Some (_serial_port self) ->
  is_Some (_serial_port (_send_and_read cmd self).2).
Proof.
  intros [port Hport]. unfold _send_and_read. rewrite Hport.
  cbn [none_throws].
  destruct (serial_write cmd port) as [[u|e] port1]; [|now eexists].
  destruct (serial_readline port1) as [line port2]. now eexists.
Qed.

Lemma after_call_keeps_port (self : ElegooMars T) (m : method) :
  is_Some (_serial_port self) ->
  is_Some (_serial_port (after_call self m)).
Proof.
  intros Hsome. destruct m as [| | | |z_pos]; cbn [after_call].
  - unfold open. destruct (serial_Serial _ _ _); [now eexists|exact Hsome].
  - destruct Hsome as [port Hport]. rewrite (close_keeps_port _ _ Hport).
    now eexists.
  - unfold get_firmware_version, bind.
    pose proof (send_and_read_keeps_port (b "M4002") self Hsome) as Hkept.
    destruct (_send_and_read (b "M4002") self) as [[data|e] self']; [|exact Hkept].
    unfold lift.
    destruct (none_throws (search version_re data) invalid_status_message);
      exact Hkept.
  - now apply send_and_read_keeps_port.
  - unfold move_to, bind, lift.
    destruct (encode _) as [data|e]; [|exact Hsome].
    now apply send_and_read_keeps_port.
Qed.

(** No method of the client ever forgets the port: once [open()] has
    stored one, the client holds a port after any sequence of calls of
    [open], [close], [get_firmware_version], [get_state] and [move_to],
    whether they return or raise.  So the failure for a port that was
    never opened is not raised again, not even after [close()]. *)
Theorem port_is_kept_by_every_call (self : ElegooMars T) (ms : list method) :
  is_Some (_serial_port self) ->
  is_Some (_serial_port (after_calls self ms))
  /\ exists port : T,
       none_throws (_serial_port (after_calls self ms)) not_opened_message
       = Ok port.
Proof.
  intros Hsome.
  assert (Hkept : is_Some (_serial_port (after_calls self ms))).
  { unfold after_calls. revert self Hsome.
    induction ms as [|m ms IH]; intros self Hsome; [exact Hsome|].
    simpl. apply IH. now apply after_call_keeps_port. }
  split; [exact Hkept|].
  destruct Hkept as [port Hport]. exists port. now rewrite Hport.
Qed.

(** A failure of the port is passed on unchanged by every command: when
    [write] raises, the command raises the same and [readline] is not
    called; when [readline] raises, the command raises the same. *)
Theorem port_failures_are_passed_on (self : ElegooMars T) (port port1 : T)
    (cmd : bytes) (e : exn) :
  _serial_port self = Some port ->
  (serial_write cmd port = (Raise e, port1) ->
     _send_and_read cmd self = (Raise e, {| _serial_port := Some port1 |})
     /\ (cmd = b "M4000" ->
           get_state self = (Raise e, {| _serial_port := Some port1 |}))
     /\ (cmd = b "M4002" ->
           get_firmware_version self
           = (Raise e, {| _serial_port := Some port1 |}))
     /\ (forall z_pos,
           cmd = ascii_bytes (text "G0 Z" ++ format_1f z_pos) ->
           move_to z_pos self = (Raise e, {| _serial_port := Some port1 |})))
  /\ (forall port2,
        serial_write cmd port = (Ok tt, port1) ->
        serial_readline port1 = (Raise e, port2) ->
        _send_and_read cmd self = (Raise e, {| _serial_port := Some port2 |})
        /\ (cmd = b "M4000" ->
              get_state self = (Raise e, {| _serial_port := Some port2 |}))
        /\ (cmd = b "M4002" ->
              get_firmware_version self
              = (Raise e, {| _serial_port := Some port2 |}))
        /\ (forall z_pos,
              cmd = ascii_bytes (text "G0 Z" ++ format_1f z_pos) ->
              move_to z_pos self = (Raise e, {| _serial_port := Some port2 |}))).
Proof.
  intros Hport.
  assert (Hmove : forall z_pos,
             move_to z_pos self
             = _send_and_read (ascii_bytes (text "G0 Z" ++ format_1f z_pos)) self).
  { intros z_pos. unfold move_to, bind, lift. rewrite encode_ascii; [reflexivity|].
    now rewrite is_ascii_app, format_1f_ascii. }
  split.
  - intros Hw.
    assert (Hsend : _send_and_read cmd self
                    = (Raise e, {| _serial_port := Some port1 |})).
    { unfold _send_and_read. rewrite Hport. cbn [none_throws]. now rewrite Hw. }
    split; [exact Hsend|]. split; [|split].
    + intros ->. exact Hsend.
    + intros ->. unfold get_firmware_version, bind. now rewrite Hsend.
    + intros z_pos ->. now rewrite Hmove.
  - intros port2 Hw Hr.
    assert (Hsend : _send_and_read cmd self
                    = (Raise e, {| _serial_port := Some port2 |})).
    { unfold _send_and_read. rewrite Hport. cbn [none_throws].
      now rewrite Hw, Hr. }
    split; [exact Hsend|]. split; [|split].
    + intros ->. exact Hsend.
    + intros ->. unfold get_firmware_version, bind. now rewrite Hsend.
    + intros z_pos ->. now rewrite Hmove.
Qed.

End CallSequences.

Lemma port_is_kept_by_every_call_witness :
  is_Some
    (Mars._serial_port
       (@Mars.after_calls _ (Mars.mock_transport Mars.foobar_reply)
          (Mars.opened Mars.foobar_reply)
          [Mars.call_get_firmware_version; Mars.call_close_port;
           Mars.call_get_state; Mars.call_close_port])).
Proof.
  refine (proj1 (@port_is_kept_by_every_call _
                   (Mars.mock_transport Mars.foobar_reply)
                   (Mars.opened Mars.foobar_reply) _ _)).
  now eexists.
Defined.

Lemma port_failures_are_passed_on_witness :
  @Mars.get_state _ Mars.unwritable_transport {| Mars._serial_port := Some tt |}
  = (Raise (SerialException "write failed"), {| Mars._serial_port := Some tt |})
  /\ @Mars.get_firmware_version _ Mars.unreadable_transport
       {| Mars._serial_port := Some tt |}
     = (Raise (SerialException "read failed"), {| Mars._serial_port := Some tt |}).
Proof.
  split.
  - destruct (@port_failures_are_passed_on _ Mars.unwritable_transport
                {| Mars._serial_port := Some tt |} tt tt (b "M4000")
                (SerialException "write failed") eq_refl) as [Hwrite _].
    destruct (Hwrite eq_refl) as (_ & Hstate & _). exact (Hstate eq_refl).
  - destruct (@port_failures_are_passed_on _ Mars.unreadable_transport
                {| Mars._serial_port := Some tt |} tt tt (b "M4002")
                (SerialException "read failed") eq_refl) as [_ Hread].
    destruct (Hread tt eq_refl eq_refl) as (_ & _ & Hversion & _).
    exact (Hversion eq_refl).
Defined.

(** * The exchange on the mock port, and [move_to] *)

Section MockExchange.
Import Py Re Mars.

Lemma send_and_read_on_mock (reply : bytes) (m : MockSerial) (cmd : bytes) :
  @_send_and_read _ (mock_transport reply) cmd {| _serial_port := Some m |}
  = (decode (readline_return_value m),
     {| _serial_port :=
          Some {| readline_return_value := readline_return_value m;
                  method_calls :=
                    method_calls m ++ [call_write cmd; call_readline] |} |}).
Proof.
  unfold _send_and_read. cbn. unfold record_call. cbn.
  now rewrite <- app_assoc.
Qed.

Lemma move_to_sends (T : Type) (H : Transport T) (z_pos : float)
    (self : ElegooMars T) :
  move_to z_pos self
  = _send_and_read (ascii_bytes (text "G0 Z" ++ format_1f z_pos)) self.
Proof.
  unfold move_to, bind, lift. rewrite encode_ascii; [reflexivity|].
  now rewrite is_ascii_app, format_1f_ascii.
Qed.

Lemma writes_after_exchange (reply cmd : bytes) :
  writes (@_send_and_read _ (mock_transport reply) cmd (opened reply)).2 = [cmd].
Proof. reflexivity. Qed.

Lemma b_G0_Z : ascii_bytes (text "G0 Z") = b "G0 Z".
Proof. reflexivity. Qed.

(** Every command is one exchange: on the mock port, whatever was called
    on it before and whatever it replies, [get_state],
    [get_firmware_version] and [move_to] each add exactly one [write] of
    their command followed by one [readline] to the recorded calls, also
    when the reply is then rejected or cannot be decoded. *)
Theorem every_command_is_one_write_and_one_readline (reply : bytes)
    (m : MockSerial) (z_pos : float) :
  let self := {| _serial_port := Some m |} in
  let calls_after (after : ElegooMars MockSerial) :=
    match _serial_port after with
    | Some m' => method_calls m'
    | None => []
    end in
  calls_after (@get_state _ (mock_transport reply) self).2
  = method_calls m ++ [call_write (b "M4000"); call_readline]
  /\ calls_after (@get_firmware_version _ (mock_transport reply) self).2
     = method_calls m ++ [call_write (b "M4002"); call_readline]
  /\ calls_after (@move_to _ (mock_transport reply) z_pos self).2
     = method_calls m
       ++ [call_write (b "G0 Z" ++ ascii_bytes (format_1f z_pos));
           call_readline].
Proof.
  cbv zeta. split; [|split].
  - unfold get_state. now rewrite send_and_read_on_mock.
  - unfold get_firmware_version, bind. rewrite send_and_read_on_mock.
    destruct (decode (readline_return_value m)) as [data|e]; [|reflexivity].
    unfold lift.
    destruct (none_throws (search version_re data) invalid_status_message);
      reflexivity.
  - now rewrite move_to_sends, send_and_read_on_mock, ascii_bytes_app, b_G0_Z.
Qed.

(** [move_to] writes [G0 Z] and the position with one decimal: for every
    finite position a minus sign when it is negative, the digits of a
    whole number, a point and exactly one digit, the position rounded to
    the nearest tenth; no feed rate follows.  It returns the decoded
    reply without checking it. *)
Theorem move_to_writes_one_decimal (reply : bytes) (z_pos : float) :
  is_finite z_pos = true ->
  exists whole digit : N,
    (digit < 10)%N
    /\ writes (@move_to _ (mock_transport reply) z_pos (opened reply)).2
       = [b "G0 Z"
          ++ ascii_bytes (sign_str (sign_bit z_pos) ++ str_of_N whole
                          ++ text "." ++ [(48 + digit)%N])]
    /\ 2 * Z.abs (10 * abs_num z_pos
                  - (10 * Z.of_N whole + Z.of_N digit) * abs_den z_pos)
       <= abs_den z_pos
    /\ (@move_to _ (mock_transport reply) z_pos (opened reply)).1
       = decode reply.
Proof.
  intros Hfin.
  destruct (format_1f_finite z_pos Hfin)
    as (whole & digit & Hdigit & Hfmt & Hnear).
  exists whole, digit. split; [exact Hdigit|].
  rewrite move_to_sends, writes_after_exchange, send_and_read_mock.
  split; [|split; [exact Hnear|reflexivity]].
  now rewrite ascii_bytes_app, b_G0_Z, Hfmt.
Qed.

(** A position nearer to zero than 0.05 is written as [0.0], and a
    negative one keeps its sign: [move_to] then writes [G0 Z-0.0]. *)
Theorem move_to_keeps_the_sign_of_a_small_position (reply : bytes)
    (z_pos : float) :
  is_finite z_pos = true ->
  20 * abs_num z_pos < abs_den z_pos ->
  writes (@move_to _ (mock_transport reply) z_pos (opened reply)).2
  = [b "G0 Z" ++ ascii_bytes (sign_str (sign_bit z_pos)) ++ b "0.0"].
Proof.
  intros Hfin Hsmall.
  rewrite move_to_sends, writes_after_exchange.
  assert (Hfmt : format_1f z_pos = sign_str (sign_bit z_pos) ++ text "0.0").
  { destruct z_pos as [s|s| |s m e]; try discriminate; [reflexivity|].
    unfold abs_num, abs_den in Hsmall. unfold format_1f, tenths.
    destruct (Z.leb_spec 0 e) as [He | He].
    - exfalso. rewrite Z.max_r, Z.max_l in Hsmall by lia.
      assert (0 < 2 ^ e) by (apply Z.pow_pos_nonneg; lia).
      change (2 ^ 0) with 1 in Hsmall. nia.
    - rewrite Z.max_l, Z.max_r in Hsmall by lia.
      change (2 ^ 0) with 1 in Hsmall.
      unfold round_half_even.
      rewrite Z.div_small, Z.mod_small by lia.
      destruct (Z.ltb_spec (2 * (Z.pos m * 10)) (2 ^ (- e))); [reflexivity|lia]. }
  now rewrite Hfmt, !ascii_bytes_app, b_G0_Z.
Qed.

End MockExchange.

Lemma move_to_writes_one_decimal_witness :
  exists whole digit : N,
    (digit < 10)%N
    /\ Mars.writes (@Mars.move_to _ (Mars.mock_transport Mars.ok_reply)
                      Py.float_15_3 (Mars.opened Mars.ok_reply)).2
       = [b "G0 Z"
          ++ Py.ascii_bytes (Py.str_of_N whole ++ text "." ++ [(48 + digit)%N])].
Proof.
  destruct (move_to_writes_one_decimal Mars.ok_reply Py.float_15_3 eq_refl)
    as (whole & digit & Hdigit & Hwrites & _).
  exists whole, digit. split; [exact Hdigit|exact Hwrites].
Defined.

Lemma move_to_keeps_the_sign_of_a_small_position_witness :
  Mars.writes (@Mars.move_to _ (Mars.mock_transport Mars.ok_reply)
                 Mars.float_minus_1_32 (Mars.opened Mars.ok_reply)).2
  = [b "G0 Z-0.0"].
Proof.
  exact (move_to_keeps_the_sign_of_a_small_position Mars.ok_reply
           Mars.float_minus_1_32 eq_refl eq_refl).
Defined.

(** * Replies as bytes *)

Section ReplyBytes.
Import Py Re Mars.

Lemma decode_utf8_ascii (bs : list N) :
  is_ascii bs = true -> decode_utf8 bs = Some bs.
Proof.
  unfold is_ascii. induction bs as [|x bs IH]; simpl; [reflexivity|].
  intros [Hx Hbs]%andb_true_iff. now rewrite Hx, (IH Hbs).
Qed.

Lemma high_byte_is_no_continuation (x : N) :
  (248 <= x)%N -> (x < 256)%N -> is_cont x = false.
Proof.
  intros Hlo Hhi.
  assert (Hcases : x = 248%N \/ x = 249%N \/ x = 250%N \/ x = 251%N
                   \/ x = 252%N \/ x = 253%N \/ x = 254%N \/ x = 255%N) by lia.
  repeat destruct Hcases as [-> | Hcases]; try reflexivity. now subst.
Qed.

Lemma decode_utf8_high_byte (n : nat) :
  forall bs : list N,
    (length bs <= n)%nat ->
    forallb (fun x => (x <? 256)%N) bs = true ->
    existsb high bs = true ->
    decode_utf8 bs = None.
Proof.
  induction n as [|n IH]; intros bs Hlen Hbound Hhigh.
  { destruct bs; [discriminate|simpl in Hlen; lia]. }
  assert (Hcont : forall x r, forallb (fun x => (x <? 256)%N) (x :: r) = true ->
            existsb high (x :: r) = true ->
            is_cont x = true ->
            forallb (fun x => (x <? 256)%N) r = true /\ existsb high r = true).
  { intros x r [Hx Hr]%andb_true_iff Hex Hc. split; [exact Hr|].
    simpl in Hex. apply orb_true_iff in Hex as [Hx' | Hr']; [|exact Hr'].
    unfold high in Hx'. apply N.leb_le in Hx'. apply N.ltb_lt in Hx.
    now rewrite (high_byte_is_no_continuation x Hx' Hx) in Hc. }
  destruct bs as [|b0 r0]; [discriminate|].
  simpl in Hlen. cbn [forallb] in Hbound.
  apply andb_true_iff in Hbound as [Hb0 Hr0].
  cbn [existsb] in Hhigh. cbn [decode_utf8].
  destruct (N.ltb_spec b0 128) as [H128 | H128].
  { assert (Hh : high b0 = false) by (unfold high; apply N.leb_gt; lia).
    rewrite Hh in Hhigh. rewrite (IH r0); [reflexivity|lia|exact Hr0|exact Hhigh]. }
  destruct (N.ltb_spec b0 224) as [H224 | H224].
  { assert (Hh : high b0 = false) by (unfold high; apply N.leb_gt; lia).
    rewrite Hh in Hhigh. destruct r0 as [|b1 r1]; [reflexivity|].
    destruct (is_cont b1) eqn:Hc1; [|now rewrite andb_false_r].
    destruct (Hcont _ _ Hr0 Hhigh Hc1) as [Hr1 Hh1].
    simpl in Hlen. rewrite (IH r1); [|lia|exact Hr1|exact Hh1].
    now destruct (_ && _ && _). }
  destruct (N.ltb_spec b0 240) as [H240 | H240].
  { assert (Hh : high b0 = false) by (unfold high; apply N.leb_gt; lia).
    rewrite Hh in Hhigh. destruct r0 as [|b1 [|b2 r2]]; try reflexivity.
    destruct (is_cont b1) eqn:Hc1; [|reflexivity].
    destruct (Hcont _ _ Hr0 Hhigh Hc1) as [Hr1 Hh1].
    destruct (is_cont b2) eqn:Hc2; [|reflexivity].
    destruct (Hcont _ _ Hr1 Hh1 Hc2) as [Hr2 Hh2].
    simpl in Hlen. rewrite (IH r2); [|lia|exact Hr2|exact Hh2].
    now destruct (_ && _ && _ && _). }
  destruct r0 as [|b1 [|b2 [|b3 r3]]]; try reflexivity.
  destruct (N.ltb_spec b0 248) as [H248 | H248]; [|reflexivity].
  assert (Hh : high b0 = false) by (unfold high; apply N.leb_gt; lia).
  rewrite Hh in Hhigh.
  destruct (is_cont b1) eqn:Hc1; [|reflexivity].
  destruct (Hcont _ _ Hr0 Hhigh Hc1) as [Hr1 Hh1].
  destruct (is_cont b2) eqn:Hc2; [|reflexivity].
  destruct (Hcont _ _ Hr1 Hh1 Hc2) as [Hr2 Hh2].
  destruct (is_cont b3) eqn:Hc3; [|reflexivity].
  destruct (Hcont _ _ Hr2 Hh2 Hc3) as [Hr3 Hh3].
  simpl in Hlen. rewrite (IH r3); [|lia|exact Hr3|exact Hh3].
  now destruct (_ && _ && _ && _ && _ && _).
Qed.

End ReplyBytes.

Lemma forallb_fmap {A B} (f : A -> B) (p : B -> bool) (l : list A) :
  forallb p (List.map f l) = forallb (fun x => p (f x)) l.
Proof. induction l as [|x l IH]; simpl; [reflexivity|]. now rewrite IH. Qed.

Lemma existsb_fmap {A B} (f : A -> B) (p : B -> bool) (l : list A) :
  existsb p (List.map f l) = existsb (fun x => p (f x)) l.
Proof. induction l as [|x l IH]; simpl; [reflexivity|]. now rewrite IH. Qed.

Section ReplyBytesClaims.
Import Py Re Mars.
Context {T : Type} `{Transport T}.

(** A reply made of 7-bit bytes always decodes, to the same characters:
    on an opened client whose port works, [get_state] returns the reply
    byte for byte, and so does every exchange. *)
Theorem ascii_reply_is_returned_unchanged (self : ElegooMars T)
    (port port1 port2 : T) (cmd line : bytes) :
  _serial_port self = Some port ->
  serial_write cmd port = (Ok tt, port1) ->
  serial_readline port1 = (Ok line, port2) ->
  forallb (fun x => (Byte.to_N x <? 128)%N) line = true ->
  (_send_and_read cmd self).1 = Ok (List.map Byte.to_N line)
  /\ (cmd = b "M4000" -> (get_state self).1 = Ok (List.map Byte.to_N line)).
Proof.
  intros Hport Hw Hr Hascii.
  assert (Hsend : (_send_and_read cmd self).1 = Ok (List.map Byte.to_N line)).
  { rewrite (send_and_read_connected _ _ _ _ _ _ Hport Hw Hr). cbn [fst].
    unfold decode. rewrite decode_utf8_ascii; [reflexivity|].
    unfold is_ascii. now rewrite forallb_fmap. }
  split; [exact Hsend|]. intros ->. exact Hsend.
Qed.

(** A reply that holds a byte from 0xF8 to 0xFF anywhere, as line noise
    does, cannot be decoded: every command then raises
    [UnicodeDecodeError], whatever else the reply holds. *)
Theorem reply_with_a_high_byte_raises (self : ElegooMars T)
    (port port1 port2 : T) (cmd line : bytes) :
  _serial_port self = Some port ->
  serial_write cmd port = (Ok tt, port1) ->
  serial_readline port1 = (Ok line, port2) ->
  existsb (fun x => high (Byte.to_N x)) line = true ->
  (_send_and_read cmd self).1 = Raise UnicodeDecodeError
  /\ (cmd = b "M4000" -> (get_state self).1 = Raise UnicodeDecodeError)
  /\ (cmd = b "M4002" ->
        (get_firmware_version self).1 = Raise UnicodeDecodeError).
Proof.
  intros Hport Hw Hr Hhigh.
  assert (Hdec : decode line = Raise UnicodeDecodeError).
  { unfold decode.
    rewrite (decode_utf8_high_byte (length (List.map Byte.to_N line)));
      [reflexivity|lia| |].
    - rewrite forallb_fmap. apply forallb_forall. intros x _.
      apply N.ltb_lt. pose proof (Byte.to_N_bounded x). lia.
    - now rewrite existsb_fmap. }
  assert (Hsend : (_send_and_read cmd self).1 = Raise UnicodeDecodeError).
  { rewrite (send_and_read_connected _ _ _ _ _ _ Hport Hw Hr). exact Hdec. }
  split; [exact Hsend|]. split; intros ->; [exact Hsend|].
  rewrite (get_firmware_version_connected _ _ _ _ _ Hport Hw Hr).
  unfold firmware_version_of_reply. now rewrite Hdec.
Qed.

End ReplyBytesClaims.

Lemma ascii_reply_is_returned_unchanged_witness :
  (@Mars.get_state _ (Mars.mock_transport Mars.foobar_reply)
     (Mars.opened Mars.foobar_reply)).1
  = Ok (text "foobar" ++ [LF]).
Proof.
  destruct (@ascii_reply_is_returned_unchanged _
              (Mars.mock_transport Mars.foobar_reply)
              (Mars.opened Mars.foobar_reply)
              _ _ _ (b "M4000") Mars.foobar_reply
              eq_refl eq_refl eq_refl eq_refl) as [_ Hstate].
  exact (Hstate eq_refl).
Defined.

Lemma reply_with_a_high_byte_raises_witness :
  (@Mars.get_firmware_version _ (Mars.mock_transport Mars.noisy_reply)
     (Mars.opened Mars.noisy_reply)).1
  = Raise UnicodeDecodeError.
Proof.
  destruct (@reply_with_a_high_byte_raises _
              (Mars.mock_transport Mars.noisy_reply)
              (Mars.opened Mars.noisy_reply)
              _ _ _ (b "M4002") Mars.noisy_reply
              eq_refl eq_refl eq_refl eq_refl) as (_ & _ & Hversion).
  exact (Hversion eq_refl).
Defined.

Section ConfigMissingKeys.
Import Config.
Context `{Env}.

(** A section that is a table but lacks a key gives the default of that
    key: [/dev/serial0] and 115200 for [printer], [0.0.0.0] and 5050 for
    [http], [/tmp/mariner/] for [cache], no display name; and a
    configuration without [files_directory] gives [/mnt/usb_share]. *)
Theorem missing_key_gives_default (config : gmap string value) :
  _get_config = Ok config ->
  (config !! "files_directory" = None ->
     get_files_directory = Ok (MkPath "/mnt/usb_share"))
  /\ (forall printer : gmap string value,
        config !! "printer" = Some (VDict printer) ->
        (printer !! "display_name" = None -> get_printer_display_name = Ok None)
        /\ (printer !! "serial_port" = None ->
              get_printer_serial_port = Ok "/dev/serial0")
        /\ (printer !! "baudrate" = None -> get_printer_baudrate = Ok 115200))
  /\ (forall http : gmap string value,
        config !! "http" = Some (VDict http) ->
        (http !! "host" = None -> get_http_host = Ok "0.0.0.0")
        /\ (http !! "port" = None -> get_http_port = Ok 5050))
  /\ (forall cache : gmap string value,
        config !! "cache" = Some (VDict cache) ->
        cache !! "directory" = None ->
        get_cache_directory = Ok "/tmp/mariner/").
Proof.
  intros Hc. split; [|split; [|split]].
  - intros Hkey. run_getter. now rewrite (dict_get_absent _ _ _ Hkey).
  - intros printer Hsec. repeat split; intros Hkey; run_getter;
      now rewrite (dict_get_present _ _ _ _ Hsec), (dict_get_absent _ _ _ Hkey).
  - intros http Hsec. repeat split; intros Hkey; run_getter;
      now rewrite (dict_get_present _ _ _ _ Hsec), (dict_get_absent _ _ _ Hkey).
  - intros cache Hsec Hkey. run_getter.
    now rewrite (dict_get_present _ _ _ _ Hsec), (dict_get_absent _ _ _ Hkey).
Qed.

End ConfigMissingKeys.

Lemma missing_key_gives_default_witness :
  @Config.get_http_host (Config.with_config Config.other_http_config)
  = Ok "0.0.0.0".
Proof.
  destruct (@missing_key_gives_default
              (Config.with_config Config.other_http_config)
              Config.other_http_config eq_refl) as (_ & _ & Hhttp & _).
  destruct (Hhttp {[ "port" := Config.VInt 80 ]}) as [Hhost _].
  - vm_compute. reflexivity.
  - apply Hhost. vm_compute. reflexivity.
Defined.

Section CloseAndNonFinite.
Import Py Re Mars.

Lemma close_on_mock (reply : bytes) (m : MockSerial) :
  @close _ (mock_transport reply) {| _serial_port := Some m |}
  = (Ok tt, {| _serial_port := Some (record_call call_close m) |}).
Proof. reflexivity. Qed.

(** [close()] has no guard against a port that is already closed: on the
    mock port, [n] calls in a row all return and call [close] on the port
    [n] times.  On a client that was never opened [close()] raises the
    failure of [none_throws] with its default message and changes
    nothing. *)
Theorem close_is_repeated_on_the_port (reply : bytes) (m : MockSerial) (n : nat) :
  @after_calls _ (mock_transport reply) {| _serial_port := Some m |}
    (replicate n call_close_port)
  = {| _serial_port :=
         Some {| readline_return_value := readline_return_value m;
                 method_calls := method_calls m ++ replicate n call_close |} |}
  /\ (forall self : ElegooMars MockSerial,
        is_Some (_serial_port self) ->
        (@close _ (mock_transport reply) self).1 = Ok tt)
  /\ @close _ (mock_transport reply) new
     = (Raise (AssertionError unexpected_none_message), new).
Proof.
  split; [|split; [|reflexivity]].
  - unfold after_calls. revert m.
    induction n as [|n IH]; intros m; cbn [replicate fold_left after_call].
    + rewrite app_nil_r. now destruct m.
    + rewrite close_on_mock. cbn [snd]. rewrite IH. unfold record_call.
      cbn [readline_return_value method_calls].
      now rewrite <- app_assoc.
  - intros self [port Hport]. destruct self as [p]. simpl in Hport. subst p.
    now rewrite close_on_mock.
Qed.

(** For a position that is not a finite number [move_to] writes no
    number at all: [G0 Zinf], [G0 Z-inf] or [G0 Znan]. *)
Theorem move_to_writes_no_number_when_not_finite (reply : bytes) (z_pos : float) :
  is_finite z_pos = false ->
  writes (@move_to _ (mock_transport reply) z_pos (opened reply)).2
  = [b "G0 Zinf"]
  \/ writes (@move_to _ (mock_transport reply) z_pos (opened reply)).2
     = [b "G0 Z-inf"]
  \/ writes (@move_to _ (mock_transport reply) z_pos (opened reply)).2
     = [b "G0 Znan"].
Proof.
  intros Hfin. rewrite move_to_sends, writes_after_exchange.
  destruct z_pos as [s|[|]| |s m e]; try discriminate; auto.
Qed.

End CloseAndNonFinite.

Lemma move_to_writes_no_number_when_not_finite_witness :
  Mars.writes (@Mars.move_to _ (Mars.mock_transport Mars.ok_reply)
                 (S754_infinity true) (Mars.opened Mars.ok_reply)).2
  = [b "G0 Z-inf"].
Proof.
  destruct (move_to_writes_no_number_when_not_finite Mars.ok_reply
              (S754_infinity true) eq_refl) as [Hinf | [Hminus | Hnan]].
  - discriminate Hinf.
  - exact Hminus.
  - discriminate Hnan.
Defined.

(** C3 fails as it is worded.  The reply [ok V4.3.4_LCDC\r\n] is [ok t]
    with a well-formed token and the line end of the firmware's other
    replies, and the call raises instead of returning the token.  The
    failure raised, there and for the reply [foobar], is the
    [AssertionError] of [none_throws] with its fixed message, not an
    unexpected-response failure with the reply. *)
Lemma get_firmware_version_raises_an_assertion_on_crlf :
  (@Mars.get_firmware_version _ (Mars.mock_transport Mars.version_reply_crlf)
     (Mars.opened Mars.version_reply_crlf)).1
  <> Ok (Some (text "V4.3.4_LCDC"))
  /\ (@Mars.get_firmware_version _ (Mars.mock_transport Mars.version_reply_crlf)
        (Mars.opened Mars.version_reply_crlf)).1
     = Raise (AssertionError Mars.invalid_status_message)
  /\ (@Mars.get_firmware_version _ (Mars.mock_transport Mars.foobar_reply)
        (Mars.opened Mars.foobar_reply)).1
     = Raise (AssertionError Mars.invalid_status_message)
  /\ (@Mars.get_firmware_version _ (Mars.mock_transport Mars.foobar_reply)
        (Mars.opened Mars.foobar_reply)).1
     <> Raise (UnexpectedResponse (text "foobar" ++ [LF])).
Proof.
  assert (Hcrlf :
    (@Mars.get_firmware_version _ (Mars.mock_transport Mars.version_reply_crlf)
       (Mars.opened Mars.version_reply_crlf)).1
    = Raise (AssertionError Mars.invalid_status_message))
    by (vm_compute; reflexivity).
  assert (Hfoobar :
    (@Mars.get_firmware_version _ (Mars.mock_transport Mars.foobar_reply)
       (Mars.opened Mars.foobar_reply)).1
    = Raise (AssertionError Mars.invalid_status_message))
    by (vm_compute; reflexivity).
  split; [rewrite Hcrlf; discriminate|].
  split; [exact Hcrlf|]. split; [exact Hfoobar|].
  rewrite Hfoobar. discriminate.
Qed.
